(** * SimpleExchange: approval cache and call-sequence composition

    A shallow embedding of [src/dex/simple-exchange.ts].  The class performs
    asynchronous I/O (a set-backed cache and read-only contract calls) and may
    throw; it is embedded in a state-and-exception monad over a [World] that
    holds the chain, the cache and the log of I/O operations performed so far.

    Strings are sequences of ASCII characters (addresses, decimal amounts and
    hexadecimal payloads are all ASCII). *)

From Stdlib Require Import ZArith NArith Ascii String List Lia.
From Stdlib Require Import DecimalString DecimalN DecimalZ.
From stdpp Require Import base option gmap strings list fin_maps.

Local Open Scope string_scope.
Local Open Scope Z_scope.

(** ** The JavaScript runtime pieces the class relies on *)

Module JS.

(** [String.prototype.toLowerCase], on ASCII. *)
Definition lowerChar (c : ascii) : ascii :=
  let n := nat_of_ascii c in
  if ((65 <=? n)%nat && (n <=? 90)%nat)%bool then ascii_of_nat (n + 32) else c.

Fixpoint toLowerCase (s : string) : string :=
  match s with
  | EmptyString => EmptyString
  | String c r => String (lowerChar c) (toLowerCase r)
  end.

(** White space and line terminators accepted (and skipped) around a
    [StringIntegerLiteral]: TAB, LF, VT, FF, CR and SP. *)
Definition isStrWhiteSpaceChar (c : ascii) : bool :=
  let n := nat_of_ascii c in
  ((9 <=? n)%nat && (n <=? 13)%nat)%bool || (n =? 32)%nat.

Fixpoint trimStart (s : string) : string :=
  match s with
  | String c r => if isStrWhiteSpaceChar c then trimStart r else s
  | EmptyString => EmptyString
  end.

(** Removes trailing white space: a suffix made of white space only
    collapses to the empty string. *)
Fixpoint trimEnd (s : string) : string :=
  match s with
  | EmptyString => EmptyString
  | String c r =>
      match trimEnd r with
      | EmptyString => if isStrWhiteSpaceChar c then EmptyString else String c EmptyString
      | r' => String c r'
      end
  end.

Definition trim (s : string) : string := trimEnd (trimStart s).

(** Value of a digit character (decimal digits and the letters a-f, A-F). *)
Definition digitValue (c : ascii) : option N :=
  let n := nat_of_ascii c in
  if ((48 <=? n)%nat && (n <=? 57)%nat)%bool then Some (N.of_nat (n - 48))
  else if ((97 <=? n)%nat && (n <=? 102)%nat)%bool then Some (N.of_nat (n - 87))
  else if ((65 <=? n)%nat && (n <=? 70)%nat)%bool then Some (N.of_nat (n - 55))
  else None.

(** Mathematical value of a run of digits in the given radix, most
    significant digit first; [None] on a character that is not a digit of
    that radix. *)
Fixpoint digitsValue (radix : N) (s : string) (acc : N) : option N :=
  match s with
  | EmptyString => Some acc
  | String c r =>
      match digitValue c with
      | Some d => if (d <? radix)%N then digitsValue radix r (radix * acc + d)%N else None
      | None => None
      end
  end.

(** At least one digit is required. *)
Definition parseDigits (radix : N) (s : string) : option N :=
  match s with
  | EmptyString => None
  | _ => digitsValue radix s 0%N
  end.

(** [StringToBigInt]: the empty (or blank) string is [0n]; a decimal literal
    may carry a sign; binary, octal and hexadecimal literals may not; anything
    else is not a [StringIntegerLiteral] and yields [None]. *)
Definition StringToBigInt (s : string) : option Z :=
  match trim s with
  | EmptyString => Some 0
  | String "+" r => Z.of_N <$> parseDigits 10 r
  | String "-" r => (fun n => - Z.of_N n) <$> parseDigits 10 r
  | String "0" (String "x" r) | String "0" (String "X" r) => Z.of_N <$> parseDigits 16 r
  | String "0" (String "o" r) | String "0" (String "O" r) => Z.of_N <$> parseDigits 8 r
  | String "0" (String "b" r) | String "0" (String "B" r) => Z.of_N <$> parseDigits 2 r
  | t => Z.of_N <$> parseDigits 10 t
  end.

(** [BigInt.prototype.toString()]: decimal, with a leading minus sign for
    negative values. *)
Definition BigInt_toString (z : Z) : string :=
  NilEmpty.string_of_int (Z.to_int z).

(** [String(n)] / template-literal conversion of an integer-valued Number
    (below 1e21 in magnitude the conversion is the plain decimal
    expansion). *)
Definition Number_toString (n : Z) : string :=
  NilEmpty.string_of_int (Z.to_int n).

(** [Array.prototype.join]. *)
Fixpoint join (sep : string) (l : list string) : string :=
  match l with
  | [] => EmptyString
  | [x] => x
  | x :: r => x +:+ sep +:+ join sep r
  end.

(** No character of the string is white space. *)
Fixpoint noWhiteSpace (s : string) : bool :=
  match s with
  | EmptyString => true
  | String c r => negb (isStrWhiteSpaceChar c) && noWhiteSpace r
  end.

End JS.

(** ** Types ([../types]) *)

Definition Address := string.
Definition NumberAsString := string.

Record SimpleExchangeParam := {
  callees : list Address;
  calldata : list string;
  values : list NumberAsString;
  networkFee : NumberAsString
}.

(** [Omit<SimpleExchangeParam, 'networkFee'>], the type of [preCalls]. *)
Record PreCalls := {
  pre_callees : list Address;
  pre_calldata : list string;
  pre_values : list NumberAsString
}.

(** ** Promises over a shared world *)

(** One entry per I/O operation, in the order performed. *)
Inductive Event :=
| CacheSismember (key member : string)
| CacheSadd (key member : string)
| EthCall (to : Address) (data : string).

Inductive Error :=
| SyntaxError      (* BigInt() on a string that is not an integer literal *)
| AbiError         (* encodeFunctionData / decodeFunctionResult threw *)
| ProviderError.   (* provider.eth.call rejected *)

(** The chain answers a read-only call to a contract with raw bytes, or
    fails; the cache maps a set key to its members. *)
Record World := {
  chain : Address -> string -> option string;
  cache : gmap string (gset string);
  trace : list Event
}.

Inductive Outcome (A : Type) :=
| Resolved (a : A)
| Rejected (e : Error).
Arguments Resolved {A} a.
Arguments Rejected {A} e.

Definition Async (A : Type) : Type := World -> Outcome A * World.

Definition ret {A} (a : A) : Async A := fun w => (Resolved a, w).
Definition throw {A} (e : Error) : Async A := fun w => (Rejected e, w).
Definition bind {A B} (c : Async A) (k : A -> Async B) : Async B :=
  fun w => match c w with
           | (Resolved a, w') => k a w'
           | (Rejected e, w') => (Rejected e, w')
           end.

(** [let! x := c in k] is [const x = await c; k]. *)
Notation "'let!' x ':=' c 'in' k" := (bind c (fun x => k))
  (at level 10, x name, c at level 100, k at level 200).
Notation "'do!' c 'in' k" := (bind c (fun _ => k))
  (at level 10, c at level 100, k at level 200).

(** A synchronous computation that may throw. *)
Definition try {A} (e : Error) (o : option A) : Async A :=
  match o with Some a => ret a | None => throw e end.

Definition logged (ev : Event) (w : World) : World :=
  {| chain := chain w; cache := cache w; trace := trace w ++ [ev] |}.

(** Modelled from the spec: the [ICache] service of [../dex-helper] is not
    under src/; the spec gives it the two operations "is member of set" and
    "add to set", both idempotent.  This is the in-memory set store. *)
Definition members (c : gmap string (gset string)) (key : string) : gset string :=
  default ∅ (c !! key).

(** Modelled from the spec: [ICache.sismember], "is member of set". *)
Definition sismember (key member : string) : Async bool :=
  fun w => (Resolved (bool_decide (member ∈ members (cache w) key)),
            logged (CacheSismember key member) w).

(** Modelled from the spec: [ICache.sadd], "add to set" (idempotent). *)
Definition sadd (key member : string) : Async unit :=
  fun w => (Resolved tt,
            {| chain := chain w;
               cache := <[key := {[member]} ∪ members (cache w) key]> (cache w);
               trace := trace w ++ [CacheSadd key member] |}).

(** [provider.eth.call({to, data})]. *)
Definition eth_call (to : Address) (data : string) : Async string :=
  fun w => match chain w to data with
           | Some raw => (Resolved raw, logged (EthCall to data) w)
           | None => (Rejected ProviderError, logged (EthCall to data) w)
           end.

(** Number of on-chain reads, cache lookups and cache writes in a log. *)
Fixpoint onChainReads (t : list Event) : nat :=
  match t with
  | [] => 0
  | EthCall _ _ :: r => S (onChainReads r)
  | _ :: r => onChainReads r
  end.

Fixpoint cacheReads (t : list Event) : nat :=
  match t with
  | [] => 0
  | CacheSismember _ _ :: r => S (cacheReads r)
  | _ :: r => cacheReads r
  end.

Fixpoint cacheWrites (t : list Event) : nat :=
  match t with
  | [] => 0
  | CacheSadd _ _ :: r => S (cacheWrites r)
  | _ :: r => cacheWrites r
  end.

(** The contract-call encoder/decoder ([Interface] of [@ethersproject/abi]):
    both methods throw on input they cannot handle.  A decoded result is
    the list of the function's outputs (unsigned integers here). *)
Record Interface := {
  encodeFunctionData : string -> list string -> option string;
  decodeFunctionResult : string -> string -> option (list N)
}.

(** [Result.prototype.toString()]: the outputs, each printed in decimal,
    joined with commas. *)
Definition BigNumber_toString (n : N) : string :=
  NilEmpty.string_of_uint (N.to_uint n).

Definition Result_toString (r : list N) : string :=
  JS.join "," (map BigNumber_toString r).

(** [BigInt(s)]. *)
Definition BigInt (s : string) : Async Z := try SyntaxError (JS.StringToBigInt s).

(** ** The module [simple-exchange.ts] *)

Definition FRIENDLY_LOCAL_DEADLINE : Z := 7 * 24 * 60 * 60.

(** [new Date().getTime()] is passed in as [now]: the number of
    milliseconds since the epoch read at the call.  [Math.floor (now / 1000)]
    is the floor division (for every time a [Date] can hold, the rounding of
    the double division never reaches the next integer). *)
Definition getLocalDeadlineAsFriendlyPlaceholder (now : Z) : string :=
  JS.Number_toString (now / 1000 + FRIENDLY_LOCAL_DEADLINE).

Record IDexHelper := {
  config_data_network : Z;
  config_data_augustusAddress : Address
}.

Record SimpleExchange := {
  simpleSwapHelper : Interface;
  erc20Interface : Interface;
  augustusAddress : Address;
  network : Z;
  dexKey : string;
  dexmapKey : string;
  cacheStateKey : string;
  cacheApprovesKey : string
}.

(** [a || b] on a possibly missing string: [undefined] and the empty
    string are falsy. *)
Definition or_else (a : option string) (b : string) : string :=
  match a with
  | Some (String c r) => String c r
  | _ => b
  end.

(** The element key of one approval fact: [`${token}_${target}`]. *)
Definition cacheKey (token target : Address) : string :=
  token +:+ "_" +:+ target.

Section SimpleExchange.

(** Constants of [../constants], the ABI objects of [../abi] and
    [isETHAddress] of [../utils] are not under src/. *)
Variables (CACHE_PREFIX : string) (ETHER_ADDRESS : Address) (MAX_UINT : string).
Variables (SimpleSwapHelperABI ERC20ABI : Interface).
Variable isETHAddress : Address -> bool.

Definition constructor (dexHelper : IDexHelper) (dexKey : string) : SimpleExchange :=
  let network := config_data_network dexHelper in
  {| simpleSwapHelper := SimpleSwapHelperABI;
     erc20Interface := ERC20ABI;
     augustusAddress := config_data_augustusAddress dexHelper;
     network := network;
     dexKey := dexKey;
     dexmapKey :=
       JS.toLowerCase (CACHE_PREFIX +:+ "_" +:+ JS.Number_toString network +:+ "_"
                       +:+ dexKey +:+ "_poolconfigs");
     cacheStateKey :=
       JS.toLowerCase (CACHE_PREFIX +:+ "_" +:+ JS.Number_toString network +:+ "_"
                       +:+ dexKey +:+ "_states");
     cacheApprovesKey :=
       JS.toLowerCase (CACHE_PREFIX +:+ "_" +:+ JS.Number_toString network
                       +:+ "_approves") |}.

Definition getAllowance (this : SimpleExchange)
    (spender token target : Address) : Async string :=
  let! allowanceData := try AbiError
    (encodeFunctionData (erc20Interface this) "allowance" [spender; target]) in
  let! allowanceRaw := eth_call token allowanceData in
  let! allowance := try AbiError
    (decodeFunctionResult (erc20Interface this) "allowance" allowanceRaw) in
  ret (Result_toString allowance).

Definition hasAugustusAllowance (this : SimpleExchange)
    (token target : Address) (amount : string) : Async bool :=
  if String.eqb (JS.toLowerCase token) (JS.toLowerCase ETHER_ADDRESS) then ret true
  else
    let cacheKey := cacheKey token target in
    let! isCachedApproved := sismember (cacheApprovesKey this) cacheKey in
    if (isCachedApproved : bool) then ret true
    else
      let! allowance := getAllowance this (augustusAddress this) token target in
      let! lhs := BigInt allowance in
      let! rhs := BigInt amount in
      let isApproved := (lhs >=? rhs) in
      do! (if isApproved then sadd (cacheApprovesKey this) cacheKey else ret tt) in
      ret isApproved.

Definition getApproveSimpleParam (this : SimpleExchange)
    (token target : Address) (amount : string) : Async SimpleExchangeParam :=
  let! hasAllowance := hasAugustusAllowance this token target amount in
  if (hasAllowance : bool) then
    ret {| callees := []; calldata := []; values := []; networkFee := "0" |}
  else
    let! approveCalldata := try AbiError
      (encodeFunctionData (simpleSwapHelper this) "approve" [token; target; MAX_UINT]) in
    ret {| callees := [augustusAddress this];
           calldata := [approveCalldata];
           values := ["0"];
           networkFee := "0" |}.

Definition buildSimpleParamWithoutWETHConversion (this : SimpleExchange)
    (src : Address) (srcAmount : NumberAsString)
    (dest : Address) (destAmount : NumberAsString)
    (swapCallData : string) (swapCallee : Address)
    (spender : option Address) (networkFee_opt : option NumberAsString)
    (preCalls : option PreCalls) : Async SimpleExchangeParam :=
  let networkFee := default "0" networkFee_opt in
  let! approveParam := getApproveSimpleParam this src (or_else spender swapCallee) srcAmount in
  let! fee := BigInt networkFee in
  let! amt := (if isETHAddress src then BigInt srcAmount else ret 0) in
  let swapValue := JS.BigInt_toString (fee + amt) in
  ret {| callees := from_option pre_callees [] preCalls ++ callees approveParam ++ [swapCallee];
         calldata := from_option pre_calldata [] preCalls ++ calldata approveParam ++ [swapCallData];
         values := from_option pre_values [] preCalls ++ values approveParam ++ [swapValue];
         networkFee := networkFee |}.

End SimpleExchange.

(** ** The specification's wording of the cache keys and of input rejection *)

(** The set key as the specification words it: prefix, network and
    integration identity, lower-cased. *)
Definition spec_cacheApprovesKey (prefix : string) (networkId : Z)
    (integrationId : string) : string :=
  JS.toLowerCase (prefix +:+ "_" +:+ JS.Number_toString networkId +:+ "_"
                  +:+ integrationId +:+ "_approves").

(** The element key as the specification words it: both addresses
    lower-cased. *)
Definition spec_cacheKey (token spender : Address) : string :=
  JS.toLowerCase token +:+ "_" +:+ JS.toLowerCase spender.

(** Every cache operation in a log uses the given set key and element
    key. *)
Definition cache_ops_use (setKey elemKey : string) (t : list Event) : Prop :=
  Forall (fun ev => match ev with
                    | CacheSismember k m | CacheSadd k m => k = setKey /\ m = elemKey
                    | EthCall _ _ => True
                    end) t.

(** The computation throws and has neither logged an I/O operation nor
    touched the cache when it does. *)
Definition rejects_before_io {A} (c : Async A) (w : World) : Prop :=
  exists e w', c w = (Rejected e, w') /\ trace w' = trace w /\ cache w' = cache w.

(** ** A concrete deployment, used to run the code on explicit inputs *)

Module Demo.

(** A toy codec: a call is printed as [name(arg,...)], a raw result is the
    decimal text of one unsigned integer. *)
Definition abi : Interface :=
  {| encodeFunctionData := fun f args => Some (f +:+ "(" +:+ JS.join "," args +:+ ")");
     decodeFunctionResult := fun _ raw =>
       match JS.StringToBigInt raw with
       | Some z => if (0 <=? z) then Some [Z.to_N z] else None
       | None => None
       end |}.

Definition ETHER_ADDRESS : Address := "0xEeeeeEeeeEeEeeEeEeEeeEEEeeeeEeeeeeeeEEeE".
Definition MAX_UINT : string :=
  "115792089237316195423570985008687907853269984665640564039457584007913129639935".
Definition isETHAddress (a : Address) : bool :=
  String.eqb (JS.toLowerCase a) (JS.toLowerCase ETHER_ADDRESS).

Definition dexHelper : IDexHelper :=
  {| config_data_network := 1; config_data_augustusAddress := "0xAugustus" |}.

Definition this : SimpleExchange := constructor "dl" abi abi dexHelper "UniswapV2".

(** Token [0xToken] reports an allowance of 50 to every query; nothing is
    cached and nothing has happened yet. *)
Definition w0 : World :=
  {| chain := fun to _ => if String.eqb to "0xToken" then Some "50" else None;
     cache := ∅;
     trace := [] |}.

(** The same chain after the pair (0xToken, 0xSpender) has been cached. *)
Definition w_cached : World :=
  {| chain := chain w0;
     cache := {[ "dl_1_approves" := {[ "0xToken_0xSpender" ]} ]};
     trace := [] |}.

Definition preCalls : PreCalls :=
  {| pre_callees := ["0xPre"]; pre_calldata := ["0xpredata"]; pre_values := ["0"] |}.

End Demo.

(** ** The runs of the allowance check, case by case *)

(** The outcome and final world of [hasAugustusAllowance], one constructor
    per path through lines 77-97. *)
Inductive AllowanceRun (ETHER_ADDRESS : Address) (this : SimpleExchange)
    (token target : Address) (amount : string) (w : World)
  : Outcome bool -> World -> Prop :=
| run_native :
    JS.toLowerCase token = JS.toLowerCase ETHER_ADDRESS ->
    AllowanceRun ETHER_ADDRESS this token target amount w (Resolved true) w
| run_hit :
    JS.toLowerCase token <> JS.toLowerCase ETHER_ADDRESS ->
    cacheKey token target ∈ members (cache w) (cacheApprovesKey this) ->
    AllowanceRun ETHER_ADDRESS this token target amount w (Resolved true)
      (logged (CacheSismember (cacheApprovesKey this) (cacheKey token target)) w)
| run_read_rejected e w1 :
    JS.toLowerCase token <> JS.toLowerCase ETHER_ADDRESS ->
    cacheKey token target ∉ members (cache w) (cacheApprovesKey this) ->
    getAllowance this (augustusAddress this) token target
      (logged (CacheSismember (cacheApprovesKey this) (cacheKey token target)) w)
      = (Rejected e, w1) ->
    AllowanceRun ETHER_ADDRESS this token target amount w (Rejected e) w1
| run_not_integer allowance w1 :
    JS.toLowerCase token <> JS.toLowerCase ETHER_ADDRESS ->
    cacheKey token target ∉ members (cache w) (cacheApprovesKey this) ->
    getAllowance this (augustusAddress this) token target
      (logged (CacheSismember (cacheApprovesKey this) (cacheKey token target)) w)
      = (Resolved allowance, w1) ->
    JS.StringToBigInt allowance = None \/ JS.StringToBigInt amount = None ->
    AllowanceRun ETHER_ADDRESS this token target amount w (Rejected SyntaxError) w1
| run_sufficient allowance w1 lhs rhs :
    JS.toLowerCase token <> JS.toLowerCase ETHER_ADDRESS ->
    cacheKey token target ∉ members (cache w) (cacheApprovesKey this) ->
    getAllowance this (augustusAddress this) token target
      (logged (CacheSismember (cacheApprovesKey this) (cacheKey token target)) w)
      = (Resolved allowance, w1) ->
    JS.StringToBigInt allowance = Some lhs ->
    JS.StringToBigInt amount = Some rhs ->
    rhs <= lhs ->
    AllowanceRun ETHER_ADDRESS this token target amount w (Resolved true)
      (snd (sadd (cacheApprovesKey this) (cacheKey token target) w1))
| run_insufficient allowance w1 lhs rhs :
    JS.toLowerCase token <> JS.toLowerCase ETHER_ADDRESS ->
    cacheKey token target ∉ members (cache w) (cacheApprovesKey this) ->
    getAllowance this (augustusAddress this) token target
      (logged (CacheSismember (cacheApprovesKey this) (cacheKey token target)) w)
      = (Resolved allowance, w1) ->
    JS.StringToBigInt allowance = Some lhs ->
    JS.StringToBigInt amount = Some rhs ->
    lhs < rhs ->
    AllowanceRun ETHER_ADDRESS this token target amount w (Resolved false) w1.

(** The string has no underscore (as every hexadecimal address). *)
Fixpoint noUnderscore (s : string) : bool :=
  match s with
  | EmptyString => true
  | String c r => negb (Ascii.eqb c "_") && noUnderscore r
  end.

(** ** More of the concrete deployment *)

Module Scenario.

(** A second integration on the same network and with the same helper. *)
Definition other : SimpleExchange := constructor "dl" Demo.abi Demo.abi Demo.dexHelper "Curve".

(** The node is unreachable: every read-only call fails. *)
Definition w_down : World :=
  {| chain := fun _ _ => None; cache := ∅; trace := [] |}.

(** A codec that refuses to encode anything. *)
Definition abi_refusing : Interface :=
  {| encodeFunctionData := fun _ _ => None;
     decodeFunctionResult := decodeFunctionResult Demo.abi |}.

Definition this_refusing : SimpleExchange :=
  constructor "dl" abi_refusing abi_refusing Demo.dexHelper "UniswapV2".

(** Token [0xToken] answers with bytes that do not decode. *)
Definition w_garbled : World :=
  {| chain := fun _ _ => Some "garbled"; cache := ∅; trace := [] |}.

End Scenario.

(** Decides a closed decidable proposition by evaluation. *)
Ltac by_evaluation := apply (bool_decide_unpack _); vm_compute; exact I.

(** ** Sanity checks of the runtime model *)

Example toLowerCase_ex : JS.toLowerCase "0xEeeE_aB9" = "0xeeee_ab9".
Proof. reflexivity. Qed.

Example StringToBigInt_dec : JS.StringToBigInt " 0100 " = Some 100.
Proof. reflexivity. Qed.

Example StringToBigInt_hex : JS.StringToBigInt "0xfF" = Some 255.
Proof. reflexivity. Qed.

Example StringToBigInt_neg : JS.StringToBigInt "-5" = Some (-5).
Proof. reflexivity. Qed.

Example StringToBigInt_empty : JS.StringToBigInt "" = Some 0.
Proof. reflexivity. Qed.

Example StringToBigInt_bad1 : JS.StringToBigInt "1.5" = None.
Proof. reflexivity. Qed.

Example StringToBigInt_bad2 : JS.StringToBigInt "abc" = None.
Proof. reflexivity. Qed.

Example StringToBigInt_bad3 : JS.StringToBigInt "0x" = None.
Proof. reflexivity. Qed.

Example StringToBigInt_bad4 : JS.StringToBigInt "-" = None.
Proof. reflexivity. Qed.

Example BigInt_toString_ex : JS.BigInt_toString (-1200) = "-1200".
Proof. reflexivity. Qed.

(** ** Facts about the runtime model *)

Section JSFacts.
Import JS.

Lemma trimStart_noWhiteSpace s : noWhiteSpace s = true -> trimStart s = s.
Proof.
  destruct s as [|c r]; simpl; [reflexivity|].
  intros [Hc _]%andb_true_iff. apply negb_true_iff in Hc. now rewrite Hc.
Qed.

Lemma trimEnd_noWhiteSpace s : noWhiteSpace s = true -> trimEnd s = s.
Proof.
  induction s as [|c r IH]; simpl; [reflexivity|].
  intros [Hc Hr]%andb_true_iff. apply negb_true_iff in Hc.
  rewrite (IH Hr), Hc. now destruct r.
Qed.

Lemma trim_noWhiteSpace s : noWhiteSpace s = true -> trim s = s.
Proof.
  intros H. unfold trim. rewrite (trimStart_noWhiteSpace _ H).
  now apply trimEnd_noWhiteSpace.
Qed.

Lemma noWhiteSpace_string_of_uint d :
  noWhiteSpace (NilEmpty.string_of_uint d) = true.
Proof. induction d; simpl; auto. Qed.

(** Reading back the decimal digits of [d] on top of a positive
    accumulator is the Standard Library's [Pos.of_uint_acc]. *)
Lemma digitsValue_of_uint_acc d : forall acc,
  digitsValue 10 (NilEmpty.string_of_uint d) (Npos acc)
  = Some (Npos (Pos.of_uint_acc d acc)).
Proof.
  induction d; intros acc; [reflexivity|..]; simpl;
    match goal with
    | |- digitsValue _ _ ?a = Some (Npos (Pos.of_uint_acc _ ?b)) =>
        replace a with (Npos b) by lia
    end; apply IHd.
Qed.

Lemma digitsValue_of_uint d :
  digitsValue 10 (NilEmpty.string_of_uint d) 0%N = Some (Pos.of_uint d).
Proof.
  induction d; [reflexivity|exact IHd|..]; apply (digitsValue_of_uint_acc d).
Qed.

Lemma parseDigits_string_of_uint d :
  d <> Decimal.Nil ->
  parseDigits 10 (NilEmpty.string_of_uint d) = Some (N.of_uint d).
Proof.
  intros Hd. unfold parseDigits, N.of_uint.
  rewrite <- digitsValue_of_uint. destruct d; [congruence|..]; reflexivity.
Qed.

Lemma to_uint_not_Nil p : Pos.to_uint p <> Decimal.Nil.
Proof.
  intros H. pose proof (DecimalPos.Unsigned.of_to p) as E.
  rewrite H in E. discriminate E.
Qed.

(** A run of decimal digits never starts like a signed or a prefixed
    literal, so [StringToBigInt] reads it as a plain decimal. *)
Lemma StringToBigInt_string_of_uint d :
  d <> Decimal.Nil ->
  StringToBigInt (NilEmpty.string_of_uint d) = Some (Z.of_N (N.of_uint d)).
Proof.
  intros Hd. unfold StringToBigInt.
  rewrite trim_noWhiteSpace by apply noWhiteSpace_string_of_uint.
  transitivity (Z.of_N <$> parseDigits 10 (NilEmpty.string_of_uint d)).
  - destruct d as [|d|d|d|d|d|d|d|d|d|d]; try congruence; try reflexivity.
    destruct d; reflexivity.
  - now rewrite parseDigits_string_of_uint.
Qed.

(** Round trip: a [bigint] printed by [toString] and read back by
    [BigInt] is the same integer. *)
Lemma StringToBigInt_toString z :
  StringToBigInt (BigInt_toString z) = Some z.
Proof.
  unfold BigInt_toString. destruct z as [|p|p]; [reflexivity|..].
  - cbn [Z.to_int NilEmpty.string_of_int].
    rewrite StringToBigInt_string_of_uint by apply to_uint_not_Nil.
    unfold N.of_uint. now rewrite DecimalPos.Unsigned.of_to.
  - cbn [Z.to_int NilEmpty.string_of_int]. unfold StringToBigInt.
    assert (Hws : noWhiteSpace (String "-" (NilEmpty.string_of_uint (Pos.to_uint p))) = true)
      by (cbn; apply noWhiteSpace_string_of_uint).
    rewrite (trim_noWhiteSpace _ Hws).
    rewrite parseDigits_string_of_uint by apply to_uint_not_Nil.
    unfold N.of_uint. now rewrite DecimalPos.Unsigned.of_to.
Qed.

(** The decimal string of an unsigned integer reads back as that
    integer. *)
Lemma StringToBigInt_to_uint n :
  StringToBigInt (NilEmpty.string_of_uint (N.to_uint n)) = Some (Z.of_N n).
Proof.
  rewrite StringToBigInt_string_of_uint.
  - now rewrite DecimalN.Unsigned.of_to.
  - destruct n; [discriminate|apply to_uint_not_Nil].
Qed.

Lemma toLowerCase_idem s : toLowerCase (toLowerCase s) = toLowerCase s.
Proof.
  induction s as [|c r IH]; [reflexivity|]. cbn [toLowerCase]. rewrite IH. f_equal.
  destruct c as [[] [] [] [] [] [] [] []]; reflexivity.
Qed.

End JSFacts.


(** ** Stepping through a promise chain *)

Local Open Scope list_scope.

Section AsyncFacts.
Context {A B : Type}.

Lemma bind_resolved (c : Async A) (k : A -> Async B) w a w' :
  c w = (Resolved a, w') -> bind c k w = k a w'.
Proof. intros H. unfold bind. now rewrite H. Qed.

Lemma bind_rejected (c : Async A) (k : A -> Async B) w e w' :
  c w = (Rejected e, w') -> bind c k w = (Rejected e, w').
Proof. intros H. unfold bind. now rewrite H. Qed.

Lemma bind_inv (c : Async A) (k : A -> Async B) w b w2 :
  bind c k w = (Resolved b, w2) ->
  exists a w1, c w = (Resolved a, w1) /\ k a w1 = (Resolved b, w2).
Proof.
  unfold bind. destruct (c w) as [[a|e] w1]; intros H; [eauto|discriminate].
Qed.

End AsyncFacts.

Lemma try_inv {A} e (o : option A) w a w' :
  try e o w = (Resolved a, w') -> o = Some a /\ w' = w.
Proof. destruct o; cbn; intros H; inversion H; auto. Qed.

Lemma BigInt_resolved s z w :
  JS.StringToBigInt s = Some z -> BigInt s w = (Resolved z, w).
Proof. intros H. unfold BigInt. now rewrite H. Qed.

Lemma BigInt_rejected s w :
  JS.StringToBigInt s = None -> BigInt s w = (Rejected SyntaxError, w).
Proof. intros H. unfold BigInt. now rewrite H. Qed.

Lemma onChainReads_app t1 t2 :
  onChainReads (t1 ++ t2) = (onChainReads t1 + onChainReads t2)%nat.
Proof.
  induction t1 as [|[] t1 IH]; cbn [app onChainReads]; rewrite ?IH; reflexivity.
Qed.

Lemma cacheReads_app t1 t2 :
  cacheReads (t1 ++ t2) = (cacheReads t1 + cacheReads t2)%nat.
Proof.
  induction t1 as [|[] t1 IH]; cbn [app cacheReads]; rewrite ?IH; reflexivity.
Qed.

Lemma cacheWrites_app t1 t2 :
  cacheWrites (t1 ++ t2) = (cacheWrites t1 + cacheWrites t2)%nat.
Proof.
  induction t1 as [|[] t1 IH]; cbn [app cacheWrites]; rewrite ?IH; reflexivity.
Qed.

Lemma members_sadd c key member :
  member ∈ members (<[key := {[member]} ∪ members c key]> c) key.
Proof. unfold members at 1. rewrite lookup_insert_eq. cbn. set_solver. Qed.

(** ** The allowance oracle *)

Section AllowanceOracle.

Variable ETHER_ADDRESS : Address.
Variable this : SimpleExchange.
Variables token target : Address.

Local Abbreviation K := (cacheApprovesKey this).
Local Abbreviation E := (cacheKey token target).

Hypothesis not_native : JS.toLowerCase token <> JS.toLowerCase ETHER_ADDRESS.

Lemma hasAugustusAllowance_unfold amount w :
  hasAugustusAllowance ETHER_ADDRESS this token target amount w =
  (let! isCachedApproved := sismember K E in
   if (isCachedApproved : bool) then ret true
   else
     let! allowance := getAllowance this (augustusAddress this) token target in
     let! lhs := BigInt allowance in
     let! rhs := BigInt amount in
     do! (if lhs >=? rhs then sadd K E else ret tt) in
     ret (lhs >=? rhs)) w.
Proof.
  unfold hasAugustusAllowance.
  now apply String.eqb_neq in not_native as ->.
Qed.

Local Abbreviation hasAugustusAllowance := (hasAugustusAllowance ETHER_ADDRESS).

Lemma hasAugustusAllowance_hit amount w :
  E ∈ members (cache w) K ->
  hasAugustusAllowance this token target amount w
  = (Resolved true, logged (CacheSismember K E) w).
Proof.
  intros Hin. rewrite hasAugustusAllowance_unfold.
  unfold bind, sismember. now rewrite bool_decide_eq_true_2.
Qed.

Lemma getAllowance_read w data raw a :
  encodeFunctionData (erc20Interface this) "allowance" [augustusAddress this; target]
    = Some data ->
  chain w token data = Some raw ->
  decodeFunctionResult (erc20Interface this) "allowance" raw = Some [a] ->
  getAllowance this (augustusAddress this) token target w
  = (Resolved (BigNumber_toString a), logged (EthCall token data) w).
Proof.
  intros He Hc Hd. unfold getAllowance, bind, eth_call.
  rewrite He. cbn. rewrite Hc, Hd. reflexivity.
Qed.

Lemma hasAugustusAllowance_miss amount w data raw a :
  E ∉ members (cache w) K ->
  encodeFunctionData (erc20Interface this) "allowance" [augustusAddress this; target]
    = Some data ->
  chain w token data = Some raw ->
  decodeFunctionResult (erc20Interface this) "allowance" raw = Some [a] ->
  hasAugustusAllowance this token target amount w
  = (let! rhs := BigInt amount in
     do! (if Z.of_N a >=? rhs then sadd K E else ret tt) in
     ret (Z.of_N a >=? rhs))
      (logged (EthCall token data) (logged (CacheSismember K E) w)).
Proof.
  intros Hin He Hc Hd. rewrite hasAugustusAllowance_unfold.
  unfold bind at 1. unfold sismember. rewrite bool_decide_eq_false_2 by assumption.
  rewrite (bind_resolved _ _ _ _ _
             (getAllowance_read (logged (CacheSismember K E) w) data raw a He Hc Hd)).
  rewrite (bind_resolved _ _ _ (Z.of_N a) _
             (BigInt_resolved _ _ _ (StringToBigInt_to_uint a))).
  reflexivity.
Qed.

(** After a call that answered [true], the pair is in the cache. *)
Lemma hasAugustusAllowance_true_cached amount w w1 :
  hasAugustusAllowance this token target amount w = (Resolved true, w1) ->
  E ∈ members (cache w1) K.
Proof.
  rewrite hasAugustusAllowance_unfold. intros H.
  apply bind_inv in H as (hit & wa & Hs & H).
  unfold sismember in Hs. inversion Hs; subst hit wa; clear Hs.
  case_bool_decide as Hin.
  - inversion H; subst w1. exact Hin.
  - apply bind_inv in H as (allowance & wb & _ & H).
    apply bind_inv in H as (lhs & wc & _ & H).
    apply bind_inv in H as (rhs & wd & _ & H).
    apply bind_inv in H as ([] & we & Hw & H).
    inversion H as [[Hge Hwe]]. rewrite Hge in Hw. subst we.
    unfold sadd in Hw. inversion Hw. cbn. apply members_sadd.
Qed.

(** A miss followed by a successful read of an allowance that covers the
    amount: the pair is added and the answer is [true]. *)
Lemma hasAugustusAllowance_miss_sufficient amount w data raw a m :
  E ∉ members (cache w) K ->
  encodeFunctionData (erc20Interface this) "allowance" [augustusAddress this; target]
    = Some data ->
  chain w token data = Some raw ->
  decodeFunctionResult (erc20Interface this) "allowance" raw = Some [a] ->
  JS.StringToBigInt amount = Some m ->
  m <= Z.of_N a ->
  hasAugustusAllowance this token target amount w
  = (Resolved true,
     {| chain := chain w;
        cache := <[K := {[E]} ∪ members (cache w) K]> (cache w);
        trace := trace w ++ [CacheSismember K E; EthCall token data; CacheSadd K E] |}).
Proof.
  intros Hin He Hc Hd Hm Hle.
  rewrite (hasAugustusAllowance_miss amount w data raw a Hin He Hc Hd).
  rewrite (bind_resolved _ _ _ m _ (BigInt_resolved _ _ _ Hm)).
  assert (Hge : (Z.of_N a >=? m) = true) by (apply Z.geb_le; lia).
  rewrite Hge. unfold bind, sadd, ret, logged. cbn [chain cache trace].
  now rewrite <- !app_assoc.
Qed.

(** The same with an allowance below the amount: the answer is [false] and
    the cache is left alone. *)
Lemma hasAugustusAllowance_miss_insufficient amount w data raw a m :
  E ∉ members (cache w) K ->
  encodeFunctionData (erc20Interface this) "allowance" [augustusAddress this; target]
    = Some data ->
  chain w token data = Some raw ->
  decodeFunctionResult (erc20Interface this) "allowance" raw = Some [a] ->
  JS.StringToBigInt amount = Some m ->
  Z.of_N a < m ->
  hasAugustusAllowance this token target amount w
  = (Resolved false,
     {| chain := chain w;
        cache := cache w;
        trace := trace w ++ [CacheSismember K E; EthCall token data] |}).
Proof.
  intros Hin He Hc Hd Hm Hlt.
  rewrite (hasAugustusAllowance_miss amount w data raw a Hin He Hc Hd).
  rewrite (bind_resolved _ _ _ m _ (BigInt_resolved _ _ _ Hm)).
  assert (Hge : (Z.of_N a >=? m) = false).
  { destruct (Z.of_N a >=? m) eqn:Hb; [apply Z.geb_le in Hb; lia|reflexivity]. }
  rewrite Hge. unfold bind, sadd, ret, logged. cbn [chain cache trace].
  now rewrite <- !app_assoc.
Qed.

(** C2: for a non-native token whose pair is not in the cache,
    [hasAugustusAllowance] performs exactly one on-chain allowance read and
    compares the decoded allowance with the amount as unbounded integers.
    When the allowance is at least the amount it adds the pair to the
    approval cache and returns [true]; when it is smaller it returns [false]
    and writes nothing to the cache. *)
Theorem hasAugustusAllowance_cache_miss amount w data raw a m :
  E ∉ members (cache w) K ->
  encodeFunctionData (erc20Interface this) "allowance" [augustusAddress this; target]
    = Some data ->
  chain w token data = Some raw ->
  decodeFunctionResult (erc20Interface this) "allowance" raw = Some [a] ->
  JS.StringToBigInt amount = Some m ->
  (m <= Z.of_N a ->
     exists w',
       hasAugustusAllowance this token target amount w = (Resolved true, w') /\
       trace w' = trace w ++ [CacheSismember K E; EthCall token data; CacheSadd K E] /\
       onChainReads (trace w') = S (onChainReads (trace w)) /\
       cache w' = <[K := {[E]} ∪ members (cache w) K]> (cache w) /\
       E ∈ members (cache w') K) /\
  (Z.of_N a < m ->
     exists w',
       hasAugustusAllowance this token target amount w = (Resolved false, w') /\
       trace w' = trace w ++ [CacheSismember K E; EthCall token data] /\
       onChainReads (trace w') = S (onChainReads (trace w)) /\
       cacheWrites (trace w') = cacheWrites (trace w) /\
       cache w' = cache w).
Proof.
  intros Hin He Hc Hd Hm. split; intros Hcmp.
  - rewrite (hasAugustusAllowance_miss_sufficient amount w data raw a m
               Hin He Hc Hd Hm Hcmp).
    eexists. split; [reflexivity|]. cbn [trace cache]. repeat split.
    + rewrite onChainReads_app. cbn. lia.
    + apply members_sadd.
  - rewrite (hasAugustusAllowance_miss_insufficient amount w data raw a m
               Hin He Hc Hd Hm Hcmp).
    eexists. split; [reflexivity|]. cbn [trace cache]. repeat split.
    + rewrite onChainReads_app. cbn. lia.
    + rewrite cacheWrites_app. cbn. lia.
Qed.

(** C4: for a non-native pair whose key is in the approval cache,
    [hasAugustusAllowance] returns [true] after the cache lookup alone, with
    no on-chain read.  Consequently, once a call for a pair has answered
    [true], a later call for the same pair (whatever the amount and the chain
    state) is served from the cache; two calls in succession that start from
    a miss with sufficient allowance perform one on-chain read in total. *)
Theorem hasAugustusAllowance_cache_hit :
  (forall amount w,
     E ∈ members (cache w) K ->
     exists w',
       hasAugustusAllowance this token target amount w = (Resolved true, w') /\
       trace w' = trace w ++ [CacheSismember K E] /\
       onChainReads (trace w') = onChainReads (trace w) /\
       cache w' = cache w) /\
  (forall amount1 w w1,
     hasAugustusAllowance this token target amount1 w = (Resolved true, w1) ->
     forall amount2 w2,
       cache w2 = cache w1 ->
       exists w3,
         hasAugustusAllowance this token target amount2 w2 = (Resolved true, w3) /\
         onChainReads (trace w3) = onChainReads (trace w2)) /\
  (forall amount1 amount2 w data raw a m,
     E ∉ members (cache w) K ->
     encodeFunctionData (erc20Interface this) "allowance" [augustusAddress this; target]
       = Some data ->
     chain w token data = Some raw ->
     decodeFunctionResult (erc20Interface this) "allowance" raw = Some [a] ->
     JS.StringToBigInt amount1 = Some m ->
     m <= Z.of_N a ->
     exists w3,
       (do! hasAugustusAllowance this token target amount1 in
        hasAugustusAllowance this token target amount2) w = (Resolved true, w3) /\
       onChainReads (trace w3) = S (onChainReads (trace w))).
Proof.
  assert (Hhit : forall amount w,
     E ∈ members (cache w) K ->
     exists w',
       hasAugustusAllowance this token target amount w = (Resolved true, w') /\
       trace w' = trace w ++ [CacheSismember K E] /\
       onChainReads (trace w') = onChainReads (trace w) /\
       cache w' = cache w).
  { intros amount w Hin. rewrite (hasAugustusAllowance_hit amount w Hin).
    eexists. split; [reflexivity|]. cbn. repeat split.
    rewrite onChainReads_app. cbn. lia. }
  split; [exact Hhit|]. split.
  - intros amount1 w w1 H1 amount2 w2 Hc.
    apply hasAugustusAllowance_true_cached in H1. rewrite <- Hc in H1.
    destruct (Hhit amount2 w2 H1) as (w3 & Hr & _ & Hn & _). eauto.
  - intros amount1 amount2 w data raw a m Hin He Hc Hd Hm Hle.
    pose proof (hasAugustusAllowance_miss_sufficient amount1 w data raw a m
                  Hin He Hc Hd Hm Hle) as Hr.
    rewrite (bind_resolved _ _ _ _ _ Hr).
    match type of Hr with _ = (_, ?w1) =>
      destruct (Hhit amount2 w1 (members_sadd _ _ _)) as (w3 & Hr3 & _ & Hn3 & _)
    end.
    exists w3. split; [exact Hr3|]. rewrite Hn3. cbn [trace].
    rewrite onChainReads_app. cbn. lia.
Qed.

End AllowanceOracle.

(** C1: when the token is the native asset (its address equals the
    native-asset address up to letter case), [hasAugustusAllowance] returns
    [true] for every spender and amount and leaves the world as it found it:
    no cache lookup and no on-chain read is logged. *)
Theorem hasAugustusAllowance_native
    (ETHER_ADDRESS : Address) (this : SimpleExchange)
    (token target : Address) (amount : string) (w : World) :
  JS.toLowerCase token = JS.toLowerCase ETHER_ADDRESS ->
  hasAugustusAllowance ETHER_ADDRESS this token target amount w = (Resolved true, w) /\
  forall w', snd (hasAugustusAllowance ETHER_ADDRESS this token target amount w) = w' ->
    trace w' = trace w /\
    cacheReads (trace w') = cacheReads (trace w) /\
    onChainReads (trace w') = onChainReads (trace w).
Proof.
  intros Heq. unfold hasAugustusAllowance.
  apply String.eqb_eq in Heq. rewrite Heq. cbn.
  split; [reflexivity|]. intros w' <-. auto.
Qed.

(** ** Which keys reach the cache *)

Section CacheKeys.

Variables (CACHE_PREFIX : string) (ETHER_ADDRESS : Address).
Variables (SimpleSwapHelperABI ERC20ABI : Interface).

(** Every branch of [hasAugustusAllowance] only appends to the log, and
    every cache operation it appends uses the instance's set key and the
    pair's element key. *)
Lemma hasAugustusAllowance_trace this token target amount w :
  exists new,
    trace (snd (hasAugustusAllowance ETHER_ADDRESS this token target amount w))
      = trace w ++ new /\
    cache_ops_use (cacheApprovesKey this) (cacheKey token target) new /\
    (JS.toLowerCase token <> JS.toLowerCase ETHER_ADDRESS ->
     exists rest,
       new = CacheSismember (cacheApprovesKey this) (cacheKey token target) :: rest).
Proof.
  unfold hasAugustusAllowance, cache_ops_use.
  destruct (String.eqb_spec (JS.toLowerCase token) (JS.toLowerCase ETHER_ADDRESS)) as [Heq|Hne].
  { exists []. cbn. rewrite app_nil_r. repeat split; [constructor|congruence]. }
  unfold bind at 1. unfold sismember. case_bool_decide.
  { eexists. cbn. repeat split; [repeat constructor; auto|eauto]. }
  unfold getAllowance, BigInt, bind, try, eth_call, sadd, ret, throw.
  repeat match goal with
         | |- context [match ?o with Some _ => _ | None => _ end] =>
             destruct o; cbn [logged trace chain cache fst snd]
         | |- context [if ?b then _ else _] =>
             destruct b; cbn [logged trace chain cache fst snd]
         end;
    rewrite <- ?app_assoc; cbn [app];
    (eexists; split; [reflexivity|]; split; [repeat constructor; auto|eauto]).
Qed.

(** C3 (as the code has it): the set key used by [hasAugustusAllowance] is
    the lower-cased [{prefix}_{networkId}_approves] (it does not contain the
    integration identity, so all integrations of a network share it), and the
    element key looked up and stored is [{token}_{spender}] built from the
    two addresses exactly as passed; it is the lower-cased key whenever both
    addresses are already in lower case. *)
Theorem cache_keys_of_hasAugustusAllowance
    (dexHelper : IDexHelper) (dexKey : string)
    (token target : Address) (amount : string) (w : World) :
  let this := constructor CACHE_PREFIX SimpleSwapHelperABI ERC20ABI dexHelper dexKey in
  cacheApprovesKey this
    = JS.toLowerCase (CACHE_PREFIX +:+ "_"
                      +:+ JS.Number_toString (config_data_network dexHelper)
                      +:+ "_approves") /\
  (exists new,
     trace (snd (hasAugustusAllowance ETHER_ADDRESS this token target amount w))
       = trace w ++ new /\
     cache_ops_use (cacheApprovesKey this) (token +:+ "_" +:+ target) new /\
     (JS.toLowerCase token <> JS.toLowerCase ETHER_ADDRESS ->
      exists rest,
        new = CacheSismember (cacheApprovesKey this) (token +:+ "_" +:+ target) :: rest)) /\
  (JS.toLowerCase token = token -> JS.toLowerCase target = target ->
   token +:+ "_" +:+ target = spec_cacheKey token target).
Proof.
  intros this. split; [reflexivity|]. split.
  - apply hasAugustusAllowance_trace.
  - intros Ht Hs. unfold spec_cacheKey. now rewrite Ht, Hs.
Qed.

End CacheKeys.

(** ** Amounts that are not integer literals *)

Section MalformedAmount.

Variable ETHER_ADDRESS : Address.
Variable this : SimpleExchange.
Variables token target : Address.

Local Abbreviation K := (cacheApprovesKey this).
Local Abbreviation E := (cacheKey token target).
Local Abbreviation hasAugustusAllowance := (hasAugustusAllowance ETHER_ADDRESS).

(** C9 (as the code has it): [hasAugustusAllowance] does not look at the
    amount before its I/O.  For a non-native token and an amount that is not
    an integer literal it always performs the cache lookup first and never
    writes to the cache; on a cache hit it returns [true] and raises nothing;
    on a cache miss whose on-chain read succeeds it raises the [SyntaxError]
    of [BigInt] only after the cache lookup and the on-chain read. *)
Theorem hasAugustusAllowance_malformed_amount amount w :
  JS.toLowerCase token <> JS.toLowerCase ETHER_ADDRESS ->
  JS.StringToBigInt amount = None ->
  (exists r w' rest,
     hasAugustusAllowance this token target amount w = (r, w') /\
     trace w' = trace w ++ CacheSismember K E :: rest /\
     cacheWrites (trace w') = cacheWrites (trace w) /\
     cache w' = cache w /\
     r <> Resolved false) /\
  (E ∈ members (cache w) K ->
   hasAugustusAllowance this token target amount w
   = (Resolved true, logged (CacheSismember K E) w)) /\
  (E ∉ members (cache w) K ->
   forall data raw a,
     encodeFunctionData (erc20Interface this) "allowance" [augustusAddress this; target]
       = Some data ->
     chain w token data = Some raw ->
     decodeFunctionResult (erc20Interface this) "allowance" raw = Some [a] ->
     hasAugustusAllowance this token target amount w
     = (Rejected SyntaxError,
        logged (EthCall token data) (logged (CacheSismember K E) w))).
Proof.
  intros Hne Hbad. split; [|split].
  - rewrite (hasAugustusAllowance_unfold _ _ _ _ Hne).
    unfold bind at 1. unfold sismember. case_bool_decide.
    { eexists _, _, []. split; [reflexivity|]. cbn [logged trace cache].
      repeat split; try reflexivity; [|discriminate].
      rewrite cacheWrites_app. cbn. lia. }
    unfold getAllowance, BigInt, bind, try, eth_call, ret, throw. rewrite Hbad.
    repeat match goal with
           | |- context [match ?o with Some _ => _ | None => _ end] =>
               destruct o; cbn [logged trace chain cache fst snd]
           end;
      (eexists _, _, _; split; [reflexivity|];
       cbn [logged trace chain cache]; rewrite <- ?app_assoc; cbn [app];
       repeat split; try reflexivity; [|discriminate];
       rewrite cacheWrites_app; cbn; lia).
  - intros Hin. now apply hasAugustusAllowance_hit.
  - intros Hin data raw a He Hc Hd.
    rewrite (hasAugustusAllowance_miss _ _ _ _ Hne amount w data raw a Hin He Hc Hd).
    now rewrite (bind_rejected _ _ _ _ _ (BigInt_rejected _ _ Hbad)).
Qed.

End MalformedAmount.

(** ** The call-sequence builder *)

Section CallSequenceBuilder.

Variables (ETHER_ADDRESS : Address) (MAX_UINT : string).
Variable isETHAddress : Address -> bool.
Variable this : SimpleExchange.

Lemma getApproveSimpleParam_eq token target amount :
  getApproveSimpleParam ETHER_ADDRESS MAX_UINT this token target amount =
  (let! hasAllowance := hasAugustusAllowance ETHER_ADDRESS this token target amount in
   if (hasAllowance : bool) then
     ret {| callees := []; calldata := []; values := []; networkFee := "0" |}
   else
     let! approveCalldata := try AbiError
       (encodeFunctionData (simpleSwapHelper this) "approve" [token; target; MAX_UINT]) in
     ret {| callees := [augustusAddress this];
            calldata := [approveCalldata];
            values := ["0"];
            networkFee := "0" |}).
Proof. reflexivity. Qed.

Lemma buildSimpleParamWithoutWETHConversion_eq
    src srcAmount dest destAmount swapCallData swapCallee spender networkFee_opt preCalls :
  buildSimpleParamWithoutWETHConversion ETHER_ADDRESS MAX_UINT isETHAddress this
    src srcAmount dest destAmount swapCallData swapCallee spender networkFee_opt preCalls =
  (let! approveParam :=
     getApproveSimpleParam ETHER_ADDRESS MAX_UINT this src
       (or_else spender swapCallee) srcAmount in
   let! fee := BigInt (default "0" networkFee_opt) in
   let! amt := (if isETHAddress src then BigInt srcAmount else ret 0) in
   ret {| callees := from_option pre_callees [] preCalls ++ callees approveParam
                     ++ [swapCallee];
          calldata := from_option pre_calldata [] preCalls ++ calldata approveParam
                      ++ [swapCallData];
          values := from_option pre_values [] preCalls ++ values approveParam
                    ++ [JS.BigInt_toString (fee + amt)];
          networkFee := default "0" networkFee_opt |}).
Proof. reflexivity. Qed.

Local Abbreviation hasAugustusAllowance := (hasAugustusAllowance ETHER_ADDRESS).
Local Abbreviation getApproveSimpleParam := (getApproveSimpleParam ETHER_ADDRESS MAX_UINT).
Local Abbreviation buildSimpleParamWithoutWETHConversion :=
  (buildSimpleParamWithoutWETHConversion ETHER_ADDRESS MAX_UINT isETHAddress).

(** C5: [getApproveSimpleParam] returns the empty sub-sequence (no callee,
    no calldata, no value, network fee "0") when the allowance is sufficient;
    when it is insufficient it returns exactly one step, addressed to the
    configured router address, whose payload encodes
    [approve(token, target, MAX_UINT)] (the maximum amount, whatever amount
    was requested) and whose attached value is "0". *)
Theorem getApproveSimpleParam_cases token target amount w w1 :
  (hasAugustusAllowance this token target amount w = (Resolved true, w1) ->
   getApproveSimpleParam this token target amount w
   = (Resolved {| callees := []; calldata := []; values := []; networkFee := "0" |}, w1)) /\
  (hasAugustusAllowance this token target amount w = (Resolved false, w1) ->
   forall approveCalldata,
     encodeFunctionData (simpleSwapHelper this) "approve" [token; target; MAX_UINT]
       = Some approveCalldata ->
     getApproveSimpleParam this token target amount w
     = (Resolved {| callees := [augustusAddress this];
                    calldata := [approveCalldata];
                    values := ["0"];
                    networkFee := "0" |}, w1)).
Proof.
  split.
  - intros H. rewrite getApproveSimpleParam_eq.
    now rewrite (bind_resolved _ _ _ _ _ H).
  - intros H approveCalldata He. rewrite getApproveSimpleParam_eq.
    rewrite (bind_resolved _ _ _ _ _ H). unfold bind, try. now rewrite He.
Qed.

(** The two results are the only ones. *)
Lemma getApproveSimpleParam_inv token target amount w ap w1 :
  getApproveSimpleParam this token target amount w = (Resolved ap, w1) ->
  (hasAugustusAllowance this token target amount w = (Resolved true, w1) /\
   ap = {| callees := []; calldata := []; values := []; networkFee := "0" |}) \/
  (hasAugustusAllowance this token target amount w = (Resolved false, w1) /\
   exists approveCalldata,
     encodeFunctionData (simpleSwapHelper this) "approve" [token; target; MAX_UINT]
       = Some approveCalldata /\
     ap = {| callees := [augustusAddress this];
             calldata := [approveCalldata];
             values := ["0"];
             networkFee := "0" |}).
Proof.
  rewrite getApproveSimpleParam_eq. intros H.
  apply bind_inv in H as ([|] & w2 & Hh & H).
  - inversion H; subst. now left.
  - apply bind_inv in H as (payload & w3 & He & H).
    apply try_inv in He as [He ->]. inversion H; subst. right. eauto.
Qed.

Lemma getApproveSimpleParam_shape token target amount w ap w1 :
  getApproveSimpleParam this token target amount w = (Resolved ap, w1) ->
  networkFee ap = "0" /\
  length (calldata ap) = length (callees ap) /\
  length (values ap) = length (callees ap) /\
  (length (callees ap) <= 1)%nat /\
  Forall (fun v => v = "0") (values ap).
Proof.
  intros H. apply getApproveSimpleParam_inv in H as [[_ ->]|[_ (payload & _ & ->)]];
    cbn; repeat split; auto.
Qed.

(** What a returned sequence is made of. *)
Lemma buildSimpleParamWithoutWETHConversion_inv
    src srcAmount dest destAmount swapCallData swapCallee spender networkFee_opt preCalls
    w p w' :
  buildSimpleParamWithoutWETHConversion this src srcAmount dest destAmount
    swapCallData swapCallee spender networkFee_opt preCalls w = (Resolved p, w') ->
  exists approveParam fee amt,
    getApproveSimpleParam this src (or_else spender swapCallee) srcAmount w
      = (Resolved approveParam, w') /\
    JS.StringToBigInt (default "0" networkFee_opt) = Some fee /\
    (if isETHAddress src then JS.StringToBigInt srcAmount = Some amt else amt = 0) /\
    p = {| callees := from_option pre_callees [] preCalls ++ callees approveParam
                      ++ [swapCallee];
           calldata := from_option pre_calldata [] preCalls ++ calldata approveParam
                       ++ [swapCallData];
           values := from_option pre_values [] preCalls ++ values approveParam
                     ++ [JS.BigInt_toString (fee + amt)];
           networkFee := default "0" networkFee_opt |}.
Proof.
  rewrite buildSimpleParamWithoutWETHConversion_eq. intros H.
  apply bind_inv in H as (ap & w1 & Hap & H).
  apply bind_inv in H as (fee & w2 & Hfee & H).
  apply try_inv in Hfee as [Hfee ->].
  apply bind_inv in H as (amt & w3 & Hamt & H).
  inversion H; subst p w'. exists ap, fee, amt.
  destruct (isETHAddress src).
  - apply try_inv in Hamt as [Hamt ->]. auto.
  - inversion Hamt; subst. auto.
Qed.

(** The builder returns as soon as the approval step is known and the
    amounts it converts are integer literals. *)
Lemma buildSimpleParamWithoutWETHConversion_resolves
    src srcAmount dest destAmount swapCallData swapCallee spender networkFee_opt preCalls
    w approveParam w1 fee amt :
  getApproveSimpleParam this src (or_else spender swapCallee) srcAmount w
    = (Resolved approveParam, w1) ->
  JS.StringToBigInt (default "0" networkFee_opt) = Some fee ->
  (isETHAddress src = true -> JS.StringToBigInt srcAmount = Some amt) ->
  buildSimpleParamWithoutWETHConversion this src srcAmount dest destAmount
    swapCallData swapCallee spender networkFee_opt preCalls w
  = (Resolved
       {| callees := from_option pre_callees [] preCalls ++ callees approveParam
                     ++ [swapCallee];
          calldata := from_option pre_calldata [] preCalls ++ calldata approveParam
                      ++ [swapCallData];
          values := from_option pre_values [] preCalls ++ values approveParam
                    ++ [JS.BigInt_toString
                          (fee + (if isETHAddress src then amt else 0))];
          networkFee := default "0" networkFee_opt |}, w1).
Proof.
  intros Hap Hfee Hamt. rewrite buildSimpleParamWithoutWETHConversion_eq.
  rewrite (bind_resolved _ _ _ _ _ Hap).
  rewrite (bind_resolved _ _ _ _ _ (BigInt_resolved _ _ _ Hfee)).
  destruct (isETHAddress src).
  - now rewrite (bind_resolved _ _ _ _ _ (BigInt_resolved _ _ _ (Hamt eq_refl))).
  - reflexivity.
Qed.

(** C6: for a swap request whose source amount reads as the integer [A]
    and whose network fee reads as the integer [F], the value attached to
    the swap step (the last of the returned values) is the decimal string of
    [A + F] when the source token is the native asset and of [F] alone
    otherwise, computed on unbounded integers; every value of the approval
    sub-sequence is "0". *)
Theorem swap_value_accounting
    src srcAmount dest destAmount swapCallData swapCallee spender networkFee_opt preCalls
    w approveParam w1 A F :
  getApproveSimpleParam this src (or_else spender swapCallee) srcAmount w
    = (Resolved approveParam, w1) ->
  JS.StringToBigInt srcAmount = Some A ->
  JS.StringToBigInt (default "0" networkFee_opt) = Some F ->
  exists p swapValue,
    buildSimpleParamWithoutWETHConversion this src srcAmount dest destAmount
      swapCallData swapCallee spender networkFee_opt preCalls w = (Resolved p, w1) /\
    values p = from_option pre_values [] preCalls ++ values approveParam ++ [swapValue] /\
    Forall (fun v => v = "0") (values approveParam) /\
    (isETHAddress src = true ->
       swapValue = JS.BigInt_toString (A + F) /\
       JS.StringToBigInt swapValue = Some (A + F)) /\
    (isETHAddress src = false ->
       swapValue = JS.BigInt_toString F /\
       JS.StringToBigInt swapValue = Some F).
Proof.
  intros Hap HA HF.
  eexists _, _. split.
  { apply (buildSimpleParamWithoutWETHConversion_resolves
             src srcAmount dest destAmount swapCallData swapCallee spender
             networkFee_opt preCalls w approveParam w1 F A Hap HF).
    intros _. exact HA. }
  cbn [values]. split; [reflexivity|]. split.
  { now apply getApproveSimpleParam_shape in Hap. }
  split; intros ->; rewrite StringToBigInt_toString.
  - rewrite (Z.add_comm F A). auto.
  - rewrite Z.add_0_r. auto.
Qed.

(** C7: a sequence returned by [buildSimpleParamWithoutWETHConversion] is
    the caller's pre-calls, then the approval sub-sequence (at most one
    step), then the swap step (callee [swapCallee], payload [swapCallData]).
    So in the callees every pre-call index is below every approval index,
    which is below the index of the swap step, the last one.  The returned
    network fee is the request's, unchanged ("0" when the request has
    none). *)
Theorem call_sequence_order
    src srcAmount dest destAmount swapCallData swapCallee spender networkFee_opt preCalls
    w p w' :
  buildSimpleParamWithoutWETHConversion this src srcAmount dest destAmount
    swapCallData swapCallee spender networkFee_opt preCalls w = (Resolved p, w') ->
  exists approveParam swapValue,
    getApproveSimpleParam this src (or_else spender swapCallee) srcAmount w
      = (Resolved approveParam, w') /\
    (length (callees approveParam) <= 1)%nat /\
    callees p = from_option pre_callees [] preCalls ++ callees approveParam ++ [swapCallee] /\
    calldata p = from_option pre_calldata [] preCalls ++ calldata approveParam
                 ++ [swapCallData] /\
    values p = from_option pre_values [] preCalls ++ values approveParam ++ [swapValue] /\
    networkFee p = default "0" networkFee_opt /\
    (forall fee, networkFee_opt = Some fee -> networkFee p = fee) /\
    let n := length (from_option pre_callees [] preCalls) in
    let k := length (callees approveParam) in
    callees p !! (n + k)%nat = Some swapCallee /\
    length (callees p) = S (n + k) /\
    (forall i, (i < n)%nat ->
       callees p !! i = from_option pre_callees [] preCalls !! i) /\
    (forall j, (j < k)%nat ->
       callees p !! (n + j)%nat = callees approveParam !! j /\
       (n + j < n + k)%nat /\
       forall i, (i < n)%nat -> (i < n + j)%nat).
Proof.
  intros H.
  apply buildSimpleParamWithoutWETHConversion_inv in H
    as (ap & fee & amt & Hap & Hfee & _ & ->).
  exists ap, (JS.BigInt_toString (fee + amt)). cbn [callees calldata values networkFee].
  split; [exact Hap|].
  split; [now apply getApproveSimpleParam_shape in Hap|].
  do 4 (split; [reflexivity|]).
  split; [now intros f ->|].
  cbn zeta. split; [|split; [|split]].
  - rewrite app_assoc, lookup_app_r; rewrite length_app; [|lia].
    now rewrite Nat.sub_diag.
  - rewrite !length_app. cbn. lia.
  - intros i Hi. now rewrite lookup_app_l.
  - intros j Hj. split; [|split; [lia|intros; lia]].
    rewrite lookup_app_r by lia.
    replace (length (from_option pre_callees [] preCalls) + j
             - length (from_option pre_callees [] preCalls))%nat with j by lia.
    now rewrite lookup_app_l.
Qed.

(** C10: when the pre-calls, if any, have as many callees as calldata as
    values, so does the sequence returned by
    [buildSimpleParamWithoutWETHConversion]: each array has one entry per
    pre-call, one per approval step, and one for the swap.  The approval
    sub-sequence returned by [getApproveSimpleParam] reports network fee "0"
    in both branches. *)
Theorem call_sequence_aligned :
  (forall token target amount w approveParam w1,
     getApproveSimpleParam this token target amount w = (Resolved approveParam, w1) ->
     networkFee approveParam = "0") /\
  (forall src srcAmount dest destAmount swapCallData swapCallee spender networkFee_opt
          preCalls w p w',
     (forall pre, preCalls = Some pre ->
        length (pre_calldata pre) = length (pre_callees pre) /\
        length (pre_values pre) = length (pre_callees pre)) ->
     buildSimpleParamWithoutWETHConversion this src srcAmount dest destAmount
       swapCallData swapCallee spender networkFee_opt preCalls w = (Resolved p, w') ->
     exists approveParam,
       getApproveSimpleParam this src (or_else spender swapCallee) srcAmount w
         = (Resolved approveParam, w') /\
       let steps := (length (from_option pre_callees [] preCalls)
                     + length (callees approveParam) + 1)%nat in
       length (callees p) = steps /\
       length (calldata p) = steps /\
       length (values p) = steps).
Proof.
  split.
  - intros token target amount w ap w1 H.
    now apply getApproveSimpleParam_shape in H.
  - intros src srcAmount dest destAmount swapCallData swapCallee spender networkFee_opt
           preCalls w p w' Hpre H.
    apply buildSimpleParamWithoutWETHConversion_inv in H
      as (ap & fee & amt & Hap & _ & _ & ->).
    exists ap. split; [exact Hap|].
    apply getApproveSimpleParam_shape in Hap as (_ & Hcd & Hv & _ & _).
    cbn [callees calldata values]. rewrite !length_app, Hcd, Hv. cbn [length].
    destruct preCalls as [pre|]; cbn [from_option length].
    + destruct (Hpre pre eq_refl) as [-> ->]. lia.
    + lia.
Qed.

End CallSequenceBuilder.

(** ** The deadline placeholder *)

(** C8: [getLocalDeadlineAsFriendlyPlaceholder], called when the clock
    reads [now] milliseconds since the epoch, returns the decimal string of
    the whole number of seconds elapsed plus 604800 (seven days); the result
    is a function of the clock reading of that call alone. *)
Theorem getLocalDeadlineAsFriendlyPlaceholder_spec (now : Z) :
  FRIENDLY_LOCAL_DEADLINE = 604800 /\
  getLocalDeadlineAsFriendlyPlaceholder now = JS.Number_toString (now / 1000 + 604800) /\
  JS.StringToBigInt (getLocalDeadlineAsFriendlyPlaceholder now)
    = Some (now / 1000 + 604800) /\
  1000 * (now / 1000) <= now < 1000 * (now / 1000 + 1).
Proof.
  split; [reflexivity|]. split; [reflexivity|]. split.
  - apply StringToBigInt_toString.
  - pose proof (Z.div_mod now 1000 ltac:(lia)).
    pose proof (Z.mod_pos_bound now 1000 ltac:(lia)). lia.
Qed.

(** ** Runs on the concrete deployment *)

Lemma hasAugustusAllowance_native_witness :
  hasAugustusAllowance Demo.ETHER_ADDRESS Demo.this
    "0xeeeeeeeeeeeeeeeeeeeeeeeeeeeeeeeeeeeeeeee" "0xSpender" "not a number" Demo.w0
  = (Resolved true, Demo.w0).
Proof.
  apply (hasAugustusAllowance_native Demo.ETHER_ADDRESS Demo.this
           "0xeeeeeeeeeeeeeeeeeeeeeeeeeeeeeeeeeeeeeeee" "0xSpender" "not a number" Demo.w0).
  reflexivity.
Defined.

Lemma hasAugustusAllowance_cache_miss_witness :
  (exists w',
     hasAugustusAllowance Demo.ETHER_ADDRESS Demo.this "0xToken" "0xSpender" "10" Demo.w0
       = (Resolved true, w') /\
     trace w' = [CacheSismember "dl_1_approves" "0xToken_0xSpender";
                 EthCall "0xToken" "allowance(0xAugustus,0xSpender)";
                 CacheSadd "dl_1_approves" "0xToken_0xSpender"]) /\
  (exists w',
     hasAugustusAllowance Demo.ETHER_ADDRESS Demo.this "0xToken" "0xSpender" "100" Demo.w0
       = (Resolved false, w') /\
     trace w' = [CacheSismember "dl_1_approves" "0xToken_0xSpender";
                 EthCall "0xToken" "allowance(0xAugustus,0xSpender)"] /\
     cache w' = ∅).
Proof.
  assert (Hne : JS.toLowerCase "0xToken" <> JS.toLowerCase Demo.ETHER_ADDRESS)
    by (vm_compute; discriminate).
  assert (Hmiss : cacheKey "0xToken" "0xSpender"
                  ∉ members (cache Demo.w0) (cacheApprovesKey Demo.this))
    by by_evaluation.
  split.
  - destruct (hasAugustusAllowance_cache_miss Demo.ETHER_ADDRESS Demo.this
                "0xToken" "0xSpender" Hne "10" Demo.w0
                "allowance(0xAugustus,0xSpender)" "50" 50%N 10
                Hmiss eq_refl eq_refl eq_refl eq_refl) as [Hyes _].
    destruct (Hyes ltac:(lia)) as (w' & Hrun & Htr & _).
    exists w'. split; [exact Hrun|exact Htr].
  - destruct (hasAugustusAllowance_cache_miss Demo.ETHER_ADDRESS Demo.this
                "0xToken" "0xSpender" Hne "100" Demo.w0
                "allowance(0xAugustus,0xSpender)" "50" 50%N 100
                Hmiss eq_refl eq_refl eq_refl eq_refl) as [_ Hno].
    destruct (Hno ltac:(lia)) as (w' & Hrun & Htr & _ & _ & Hc).
    exists w'. split; [exact Hrun|]. split; [exact Htr|exact Hc].
Defined.

Lemma hasAugustusAllowance_cache_hit_witness :
  (exists w',
     hasAugustusAllowance Demo.ETHER_ADDRESS Demo.this "0xToken" "0xSpender"
       "1000000" Demo.w_cached = (Resolved true, w') /\
     onChainReads (trace w') = 0%nat) /\
  (exists w3,
     (do! hasAugustusAllowance Demo.ETHER_ADDRESS Demo.this "0xToken" "0xSpender" "10" in
      hasAugustusAllowance Demo.ETHER_ADDRESS Demo.this "0xToken" "0xSpender" "1000000")
       Demo.w0 = (Resolved true, w3) /\
     onChainReads (trace w3) = 1%nat).
Proof.
  assert (Hne : JS.toLowerCase "0xToken" <> JS.toLowerCase Demo.ETHER_ADDRESS)
    by (vm_compute; discriminate).
  destruct (hasAugustusAllowance_cache_hit Demo.ETHER_ADDRESS Demo.this
              "0xToken" "0xSpender" Hne) as (Hhit & _ & Htwice).
  split.
  - destruct (Hhit "1000000" Demo.w_cached ltac:(by_evaluation))
      as (w' & Hrun & _ & Hn & _).
    exists w'. split; [exact Hrun|exact Hn].
  - destruct (Htwice "10" "1000000" Demo.w0
                "allowance(0xAugustus,0xSpender)" "50" 50%N 10
                ltac:(by_evaluation) eq_refl eq_refl eq_refl eq_refl ltac:(lia))
      as (w3 & Hrun & Hn).
    exists w3. split; [exact Hrun|exact Hn].
Defined.

(** C3, as stated, fails on the code: run on the concrete deployment
    (prefix "dl", network 1, integration "UniswapV2") for the pair
    (0xToken, 0xSpender), the cache operations use the set key
    "dl_1_approves" and the element key "0xToken_0xSpender", neither of
    which is the key the specification describes. *)
Lemma cache_keys_not_as_specified :
  let run := hasAugustusAllowance Demo.ETHER_ADDRESS Demo.this
               "0xToken" "0xSpender" "10" Demo.w0 in
  trace (snd run) = [CacheSismember "dl_1_approves" "0xToken_0xSpender";
                     EthCall "0xToken" "allowance(0xAugustus,0xSpender)";
                     CacheSadd "dl_1_approves" "0xToken_0xSpender"] /\
  spec_cacheApprovesKey "dl" 1 "UniswapV2" = "dl_1_uniswapv2_approves" /\
  spec_cacheKey "0xToken" "0xSpender" = "0xtoken_0xspender" /\
  cacheApprovesKey Demo.this <> spec_cacheApprovesKey "dl" 1 "UniswapV2" /\
  cacheKey "0xToken" "0xSpender" <> spec_cacheKey "0xToken" "0xSpender" /\
  ~ cache_ops_use (spec_cacheApprovesKey "dl" 1 "UniswapV2")
      (spec_cacheKey "0xToken" "0xSpender") (trace (snd run)).
Proof.
  cbv zeta. repeat split; try reflexivity; try (vm_compute; discriminate).
  intros H. unfold cache_ops_use in H. vm_compute in H.
  inversion H as [|ev rest Hhead _]. cbn in Hhead.
  destruct Hhead as [Hk _]. discriminate Hk.
Qed.

Lemma cache_keys_of_hasAugustusAllowance_witness :
  cacheApprovesKey Demo.this = "dl_1_approves" /\
  (exists rest,
     trace (snd (hasAugustusAllowance Demo.ETHER_ADDRESS Demo.this
                   "0xToken" "0xSpender" "10" Demo.w0))
     = CacheSismember "dl_1_approves" "0xToken_0xSpender" :: rest /\
     cache_ops_use "dl_1_approves" "0xToken_0xSpender" rest) /\
  cacheKey "0xtoken" "0xspender" = spec_cacheKey "0xtoken" "0xspender".
Proof.
  destruct (cache_keys_of_hasAugustusAllowance "dl" Demo.ETHER_ADDRESS Demo.abi Demo.abi
              Demo.dexHelper "UniswapV2" "0xToken" "0xSpender" "10" Demo.w0)
    as (Hkey & (new & Htr & Huse & Hfirst) & _).
  destruct (cache_keys_of_hasAugustusAllowance "dl" Demo.ETHER_ADDRESS Demo.abi Demo.abi
              Demo.dexHelper "UniswapV2" "0xtoken" "0xspender" "10" Demo.w0)
    as (_ & _ & Hlow).
  split; [exact Hkey|]. split; [|exact (Hlow eq_refl eq_refl)].
  destruct (Hfirst ltac:(vm_compute; discriminate)) as (rest & ->).
  exists rest. split; [exact Htr|].
  unfold cache_ops_use in *. now apply Forall_cons in Huse as [_ Huse].
Defined.

(** C9, as stated, fails on the code: with the amount "abc" and nothing
    cached, the cache lookup and the on-chain read are both performed before
    [BigInt] throws; with the pair cached, nothing is thrown at all. *)
Lemma malformed_amount_not_rejected_before_io :
  JS.toLowerCase "0xToken" <> JS.toLowerCase Demo.ETHER_ADDRESS /\
  JS.StringToBigInt "abc" = None /\
  (let run := hasAugustusAllowance Demo.ETHER_ADDRESS Demo.this
                "0xToken" "0xSpender" "abc" Demo.w0 in
   fst run = Rejected SyntaxError /\
   trace (snd run) = [CacheSismember "dl_1_approves" "0xToken_0xSpender";
                      EthCall "0xToken" "allowance(0xAugustus,0xSpender)"]) /\
  ~ rejects_before_io
      (hasAugustusAllowance Demo.ETHER_ADDRESS Demo.this "0xToken" "0xSpender" "abc")
      Demo.w0 /\
  fst (hasAugustusAllowance Demo.ETHER_ADDRESS Demo.this "0xToken" "0xSpender" "abc"
         Demo.w_cached) = Resolved true /\
  ~ rejects_before_io
      (hasAugustusAllowance Demo.ETHER_ADDRESS Demo.this "0xToken" "0xSpender" "abc")
      Demo.w_cached.
Proof.
  split; [vm_compute; discriminate|]. split; [reflexivity|].
  split; [split; reflexivity|]. split; [|split; [reflexivity|]].
  - intros (e & w' & Hrun & Htr & _).
    apply (f_equal (fun x => trace (snd x))) in Hrun. cbn beta in Hrun.
    cbn [snd] in Hrun. rewrite Htr in Hrun. vm_compute in Hrun. discriminate Hrun.
  - intros (e & w' & Hrun & _).
    apply (f_equal fst) in Hrun. vm_compute in Hrun. discriminate Hrun.
Qed.

Lemma hasAugustusAllowance_malformed_amount_witness :
  hasAugustusAllowance Demo.ETHER_ADDRESS Demo.this "0xToken" "0xSpender" "abc"
    Demo.w_cached
  = (Resolved true, logged (CacheSismember "dl_1_approves" "0xToken_0xSpender") Demo.w_cached) /\
  hasAugustusAllowance Demo.ETHER_ADDRESS Demo.this "0xToken" "0xSpender" "abc" Demo.w0
  = (Rejected SyntaxError,
     logged (EthCall "0xToken" "allowance(0xAugustus,0xSpender)")
       (logged (CacheSismember "dl_1_approves" "0xToken_0xSpender") Demo.w0)).
Proof.
  assert (Hne : JS.toLowerCase "0xToken" <> JS.toLowerCase Demo.ETHER_ADDRESS)
    by (vm_compute; discriminate).
  split.
  - destruct (hasAugustusAllowance_malformed_amount Demo.ETHER_ADDRESS Demo.this
                "0xToken" "0xSpender" "abc" Demo.w_cached Hne eq_refl)
      as (_ & Hhit & _).
    exact (Hhit ltac:(by_evaluation)).
  - destruct (hasAugustusAllowance_malformed_amount Demo.ETHER_ADDRESS Demo.this
                "0xToken" "0xSpender" "abc" Demo.w0 Hne eq_refl)
      as (_ & _ & Hmiss).
    exact (Hmiss ltac:(by_evaluation) "allowance(0xAugustus,0xSpender)" "50" 50%N
             eq_refl eq_refl eq_refl).
Defined.

Lemma getApproveSimpleParam_cases_witness :
  getApproveSimpleParam Demo.ETHER_ADDRESS Demo.MAX_UINT Demo.this
    "0xToken" "0xSpender" "10" Demo.w0
  = (Resolved {| callees := []; calldata := []; values := []; networkFee := "0" |},
     snd (hasAugustusAllowance Demo.ETHER_ADDRESS Demo.this
            "0xToken" "0xSpender" "10" Demo.w0)) /\
  getApproveSimpleParam Demo.ETHER_ADDRESS Demo.MAX_UINT Demo.this
    "0xToken" "0xSpender" "100" Demo.w0
  = (Resolved {| callees := ["0xAugustus"];
                 calldata := ["approve(0xToken,0xSpender," +:+ Demo.MAX_UINT +:+ ")"];
                 values := ["0"];
                 networkFee := "0" |},
     snd (hasAugustusAllowance Demo.ETHER_ADDRESS Demo.this
            "0xToken" "0xSpender" "100" Demo.w0)).
Proof.
  split.
  - apply (proj1 (getApproveSimpleParam_cases Demo.ETHER_ADDRESS Demo.MAX_UINT Demo.this
                    "0xToken" "0xSpender" "10" Demo.w0
                    (snd (hasAugustusAllowance Demo.ETHER_ADDRESS Demo.this
                            "0xToken" "0xSpender" "10" Demo.w0)))).
    reflexivity.
  - apply (proj2 (getApproveSimpleParam_cases Demo.ETHER_ADDRESS Demo.MAX_UINT Demo.this
                    "0xToken" "0xSpender" "100" Demo.w0
                    (snd (hasAugustusAllowance Demo.ETHER_ADDRESS Demo.this
                            "0xToken" "0xSpender" "100" Demo.w0)))).
    + reflexivity.
    + reflexivity.
Defined.

Lemma swap_value_accounting_witness :
  (exists p,
     buildSimpleParamWithoutWETHConversion Demo.ETHER_ADDRESS Demo.MAX_UINT
       Demo.isETHAddress Demo.this Demo.ETHER_ADDRESS "1000" "0xToken" "1"
       "0xswapdata" "0xCallee" None (Some "7") None Demo.w0 = (Resolved p, Demo.w0) /\
     values p = ["1007"]) /\
  (exists p w1,
     buildSimpleParamWithoutWETHConversion Demo.ETHER_ADDRESS Demo.MAX_UINT
       Demo.isETHAddress Demo.this "0xToken" "1000" Demo.ETHER_ADDRESS "1"
       "0xswapdata" "0xCallee" None (Some "7") (Some Demo.preCalls) Demo.w0
     = (Resolved p, w1) /\
     values p = ["0"; "0"; "7"]).
Proof.
  split.
  - destruct (swap_value_accounting Demo.ETHER_ADDRESS Demo.MAX_UINT Demo.isETHAddress
                Demo.this Demo.ETHER_ADDRESS "1000" "0xToken" "1" "0xswapdata" "0xCallee"
                None (Some "7") None Demo.w0
                {| callees := []; calldata := []; values := []; networkFee := "0" |}
                Demo.w0 1000 7 eq_refl eq_refl eq_refl)
      as (p & swapValue & Hrun & Hv & _ & Hnative & _).
    exists p. split; [exact Hrun|].
    destruct (Hnative eq_refl) as [Hs _]. rewrite Hv, Hs. reflexivity.
  - destruct (swap_value_accounting Demo.ETHER_ADDRESS Demo.MAX_UINT Demo.isETHAddress
                Demo.this "0xToken" "1000" Demo.ETHER_ADDRESS "1" "0xswapdata" "0xCallee"
                None (Some "7") (Some Demo.preCalls) Demo.w0
                {| callees := ["0xAugustus"];
                   calldata := ["approve(0xToken,0xCallee," +:+ Demo.MAX_UINT +:+ ")"];
                   values := ["0"];
                   networkFee := "0" |}
                (snd (hasAugustusAllowance Demo.ETHER_ADDRESS Demo.this
                        "0xToken" "0xCallee" "1000" Demo.w0))
                1000 7 eq_refl eq_refl eq_refl)
      as (p & swapValue & Hrun & Hv & _ & _ & Hother).
    exists p. eexists. split; [exact Hrun|].
    destruct (Hother eq_refl) as [Hs _]. rewrite Hv, Hs. reflexivity.
Defined.

Lemma call_sequence_order_witness :
  exists p w' approveParam,
    buildSimpleParamWithoutWETHConversion Demo.ETHER_ADDRESS Demo.MAX_UINT
      Demo.isETHAddress Demo.this "0xToken" "1000" Demo.ETHER_ADDRESS "1"
      "0xswapdata" "0xCallee" (Some "0xSpender") (Some "7") (Some Demo.preCalls) Demo.w0
    = (Resolved p, w') /\
    getApproveSimpleParam Demo.ETHER_ADDRESS Demo.MAX_UINT Demo.this
      "0xToken" "0xSpender" "1000" Demo.w0 = (Resolved approveParam, w') /\
    callees p = ["0xPre"] ++ callees approveParam ++ ["0xCallee"] /\
    calldata p = ["0xpredata"] ++ calldata approveParam ++ ["0xswapdata"] /\
    callees p !! 2%nat = Some "0xCallee" /\
    networkFee p = "7".
Proof.
  pose (run := buildSimpleParamWithoutWETHConversion Demo.ETHER_ADDRESS Demo.MAX_UINT
      Demo.isETHAddress Demo.this "0xToken" "1000" Demo.ETHER_ADDRESS "1"
      "0xswapdata" "0xCallee" (Some "0xSpender") (Some "7") (Some Demo.preCalls) Demo.w0).
  assert (Hrun : run =
    (Resolved {| callees := ["0xPre"; "0xAugustus"; "0xCallee"];
                 calldata := ["0xpredata";
                              "approve(0xToken,0xSpender," +:+ Demo.MAX_UINT +:+ ")";
                              "0xswapdata"];
                 values := ["0"; "0"; "7"];
                 networkFee := "7" |}, snd run)) by reflexivity.
  subst run.
  destruct (call_sequence_order _ _ _ _ _ _ _ _ _ _ _ _ _ _ _ _ Hrun)
    as (ap & sv & Hap & _ & Hc & Hd & _ & Hfee & _ & Hswap & _).
  eexists _, _, ap. split; [exact Hrun|]. split; [exact Hap|].
  split; [exact Hc|]. split; [exact Hd|]. split; [|exact Hfee].
  reflexivity.
Defined.

Lemma call_sequence_aligned_witness :
  exists p w' approveParam,
    buildSimpleParamWithoutWETHConversion Demo.ETHER_ADDRESS Demo.MAX_UINT
      Demo.isETHAddress Demo.this "0xToken" "1000" Demo.ETHER_ADDRESS "1"
      "0xswapdata" "0xCallee" (Some "0xSpender") (Some "7") (Some Demo.preCalls) Demo.w0
    = (Resolved p, w') /\
    networkFee approveParam = "0" /\
    length (callees p) = (1 + length (callees approveParam) + 1)%nat /\
    length (calldata p) = (1 + length (callees approveParam) + 1)%nat /\
    length (values p) = (1 + length (callees approveParam) + 1)%nat.
Proof.
  pose (run := buildSimpleParamWithoutWETHConversion Demo.ETHER_ADDRESS Demo.MAX_UINT
      Demo.isETHAddress Demo.this "0xToken" "1000" Demo.ETHER_ADDRESS "1"
      "0xswapdata" "0xCallee" (Some "0xSpender") (Some "7") (Some Demo.preCalls) Demo.w0).
  assert (Hrun : run =
    (Resolved {| callees := ["0xPre"; "0xAugustus"; "0xCallee"];
                 calldata := ["0xpredata";
                              "approve(0xToken,0xSpender," +:+ Demo.MAX_UINT +:+ ")";
                              "0xswapdata"];
                 values := ["0"; "0"; "7"];
                 networkFee := "7" |}, snd run)) by reflexivity.
  subst run.
  destruct (call_sequence_aligned Demo.ETHER_ADDRESS Demo.MAX_UINT Demo.isETHAddress
              Demo.this) as [Hfee Hlen].
  assert (Hpre : forall pre, Some Demo.preCalls = Some pre ->
            length (pre_calldata pre) = length (pre_callees pre) /\
            length (pre_values pre) = length (pre_callees pre)).
  { intros pre [= <-]. split; reflexivity. }
  destruct (Hlen _ _ _ _ _ _ _ _ _ _ _ _ Hpre Hrun) as (ap & Hap & Hc & Hd & Hv).
  pose proof (Hfee _ _ _ _ _ _ Hap) as Hzero.
  eexists _, _, ap. split; [exact Hrun|]. split; [exact Hzero|].
  split; [exact Hc|]. split; [exact Hd|exact Hv].
Defined.

(** ** Every run of the allowance check *)

Section AllowanceRuns.

Variable ETHER_ADDRESS : Address.
Variable this : SimpleExchange.
Variables token target : Address.

Local Abbreviation K := (cacheApprovesKey this).
Local Abbreviation E := (cacheKey token target).

Lemma hasAugustusAllowance_native_eq amount w :
  JS.toLowerCase token = JS.toLowerCase ETHER_ADDRESS ->
  hasAugustusAllowance ETHER_ADDRESS this token target amount w = (Resolved true, w).
Proof.
  intros Heq. unfold hasAugustusAllowance.
  now apply String.eqb_eq in Heq as ->.
Qed.

Local Abbreviation hasAugustusAllowance := (hasAugustusAllowance ETHER_ADDRESS).

(** [getAllowance] either fails to encode, leaving the world alone, or
    logs one read addressed to the token. *)
Lemma getAllowance_world spender w r w1 :
  getAllowance this spender token target w = (r, w1) ->
  (encodeFunctionData (erc20Interface this) "allowance" [spender; target] = None /\
   r = Rejected AbiError /\ w1 = w) \/
  (exists data,
     encodeFunctionData (erc20Interface this) "allowance" [spender; target] = Some data /\
     w1 = logged (EthCall token data) w).
Proof.
  unfold getAllowance, bind, try, eth_call, ret, throw.
  destruct (encodeFunctionData _ _ _) as [data|]; [|intros [= <- <-]; now left].
  intros H. right. exists data. split; [reflexivity|].
  destruct (chain w token data) as [raw|]; [|now inversion H].
  destruct (decodeFunctionResult _ _ raw); now inversion H.
Qed.

Lemma getAllowance_resolved_inv spender w s w1 :
  getAllowance this spender token target w = (Resolved s, w1) ->
  exists data raw l,
    encodeFunctionData (erc20Interface this) "allowance" [spender; target] = Some data /\
    chain w token data = Some raw /\
    decodeFunctionResult (erc20Interface this) "allowance" raw = Some l /\
    s = Result_toString l /\
    w1 = logged (EthCall token data) w.
Proof.
  unfold getAllowance, bind, try, eth_call, ret, throw.
  destruct (encodeFunctionData _ _ _) as [data|]; [|discriminate].
  destruct (chain w token data) as [raw|] eqn:Hc; [|discriminate].
  destruct (decodeFunctionResult _ _ raw) as [l|] eqn:Hd; [|discriminate].
  intros [= <- <-]. exists data, raw, l. auto.
Qed.

(** The function follows exactly one of the paths of [AllowanceRun]. *)
Lemma hasAugustusAllowance_run amount w r w' :
  hasAugustusAllowance this token target amount w = (r, w') ->
  AllowanceRun ETHER_ADDRESS this token target amount w r w'.
Proof.
  destruct (String.eqb_spec (JS.toLowerCase token) (JS.toLowerCase ETHER_ADDRESS))
    as [Heq|Hne].
  { rewrite (hasAugustusAllowance_native_eq amount w Heq).
    intros [= <- <-]. now constructor. }
  destruct (decide (E ∈ members (cache w) K)) as [Hin|Hin].
  { rewrite (hasAugustusAllowance_hit _ _ _ _ Hne amount w Hin).
    intros [= <- <-]. now constructor. }
  rewrite (hasAugustusAllowance_unfold _ _ _ _ Hne).
  unfold bind at 1. unfold sismember. rewrite bool_decide_eq_false_2 by assumption.
  destruct (getAllowance this (augustusAddress this) token target
              (logged (CacheSismember K E) w)) as [[allowance|e] w1] eqn:Hg.
  2:{ rewrite (bind_rejected _ _ _ _ _ Hg). intros [= <- <-].
      apply run_read_rejected; assumption. }
  rewrite (bind_resolved _ _ _ _ _ Hg).
  destruct (JS.StringToBigInt allowance) as [lhs|] eqn:Hl.
  2:{ rewrite (bind_rejected _ _ _ _ _ (BigInt_rejected _ _ Hl)). intros [= <- <-].
      apply (run_not_integer _ _ _ _ _ _ allowance); auto. }
  rewrite (bind_resolved _ _ _ _ _ (BigInt_resolved _ _ _ Hl)).
  destruct (JS.StringToBigInt amount) as [rhs|] eqn:Hr.
  2:{ rewrite (bind_rejected _ _ _ _ _ (BigInt_rejected _ _ Hr)). intros [= <- <-].
      apply (run_not_integer _ _ _ _ _ _ allowance); auto. }
  rewrite (bind_resolved _ _ _ _ _ (BigInt_resolved _ _ _ Hr)).
  destruct (lhs >=? rhs) eqn:Hge; unfold bind, ret; cbn [fst snd]; intros [= <- <-].
  - apply Z.geb_le in Hge.
    apply (run_sufficient _ _ _ _ _ _ allowance w1 lhs rhs); auto.
  - assert (lhs < rhs) by (destruct (Z.ltb_spec lhs rhs) as [|Hle];
                           [assumption|apply Z.geb_le in Hle; congruence]).
    apply (run_insufficient _ _ _ _ _ _ allowance w1 lhs rhs); auto.
Qed.

(** X1: whatever the outcome, one call of [hasAugustusAllowance] leaves
    the chain alone and appends to the I/O log a prefix of: the cache lookup,
    then one on-chain read (addressed to the token, with the encoded
    [allowance(augustusAddress, target)] call), then the cache write.  So the
    lookup comes before the read and the read before the write, and each
    happens at most once. *)
Theorem hasAugustusAllowance_io_order amount w :
  let w' := snd (hasAugustusAllowance this token target amount w) in
  chain w' = chain w /\
  (trace w' = trace w \/
   trace w' = trace w ++ [CacheSismember K E] \/
   exists data,
     encodeFunctionData (erc20Interface this) "allowance" [augustusAddress this; target]
       = Some data /\
     (trace w' = trace w ++ [CacheSismember K E; EthCall token data] \/
      trace w' = trace w ++ [CacheSismember K E; EthCall token data; CacheSadd K E])).
Proof.
  destruct (hasAugustusAllowance this token target amount w) as [r w1] eqn:H.
  cbn [snd]. apply hasAugustusAllowance_run in H.
  inversion H as [Hn|Hn Hin|e w2 Hn Hin Hg|s w2 Hn Hin Hg Hbad
                  |s w2 lhs rhs Hn Hin Hg Hl Hr Hcmp|s w2 lhs rhs Hn Hin Hg Hl Hr Hcmp];
    subst; try (split; [reflexivity|auto]; fail).
  - apply getAllowance_world in Hg as [(_ & _ & ->)|(data & He & ->)];
      (split; [reflexivity|]); [auto|].
    right; right. exists data. split; [exact He|left]. cbn. now rewrite <- app_assoc.
  - apply getAllowance_world in Hg as [(_ & [=] & _)|(data & He & ->)].
    split; [reflexivity|]. right; right. exists data. split; [exact He|left].
    cbn. now rewrite <- app_assoc.
  - apply getAllowance_world in Hg as [(_ & [=] & _)|(data & He & ->)].
    split; [reflexivity|]. right; right. exists data. split; [exact He|right].
    cbn. now rewrite <- !app_assoc.
  - apply getAllowance_world in Hg as [(_ & [=] & _)|(data & He & ->)].
    split; [reflexivity|]. right; right. exists data. split; [exact He|left].
    cbn. now rewrite <- app_assoc.
Qed.


(** X3: a call only ever touches its own entry: the members of every
    other set key, and every other element of the approvals set, are the
    same before and after. *)
Theorem hasAugustusAllowance_frame amount w :
  let w' := snd (hasAugustusAllowance this token target amount w) in
  (forall k, k <> K -> members (cache w') k = members (cache w) k) /\
  (forall x, x <> E -> x ∈ members (cache w') K <-> x ∈ members (cache w) K).
Proof.
  destruct (hasAugustusAllowance this token target amount w) as [r w1] eqn:H.
  cbn [snd]. apply hasAugustusAllowance_run in H.
  inversion H as [Hn|Hn Hin|e w2 Hn Hin Hg|s w2 Hn Hin Hg Hbad
                  |s w2 lhs rhs Hn Hin Hg Hl Hr Hcmp|s w2 lhs rhs Hn Hin Hg Hl Hr Hcmp];
    subst; try (split; [reflexivity|intros; reflexivity]; fail);
    apply getAllowance_world in Hg as [(_ & Hr' & Hw)|(data & He & ->)];
    try discriminate Hr'; subst;
    try (split; [reflexivity|intros; reflexivity]; fail).
  cbn. split.
  - intros k Hk. unfold members at 1. now rewrite lookup_insert_ne.
  - intros x Hx. unfold members at 1. rewrite lookup_insert_eq. cbn.
    rewrite elem_of_union, elem_of_singleton. intuition congruence.
Qed.

End AllowanceRuns.

(** ** What an answer of the allowance check is evidence of *)

Section AllowanceAnswers.

Variable ETHER_ADDRESS : Address.
Variable this : SimpleExchange.
Variables token target : Address.

Local Abbreviation K := (cacheApprovesKey this).
Local Abbreviation E := (cacheKey token target).
Local Abbreviation hasAugustusAllowance := (hasAugustusAllowance ETHER_ADDRESS).

(** X4: the answer [false] is only ever given on the evidence of an
    on-chain read made during the call: the token is not the native asset,
    the pair was not cached, the read succeeded, and the allowance it
    returned is an integer strictly below the requested amount.  Exactly the
    lookup and that read were logged. *)
Theorem hasAugustusAllowance_false_sound amount w w' :
  hasAugustusAllowance this token target amount w = (Resolved false, w') ->
  JS.toLowerCase token <> JS.toLowerCase ETHER_ADDRESS /\
  (E ∉ members (cache w) K) /\
  exists data raw l lhs rhs,
    encodeFunctionData (erc20Interface this) "allowance" [augustusAddress this; target]
      = Some data /\
    chain w token data = Some raw /\
    decodeFunctionResult (erc20Interface this) "allowance" raw = Some l /\
    JS.StringToBigInt (Result_toString l) = Some lhs /\
    JS.StringToBigInt amount = Some rhs /\
    lhs < rhs /\
    w' = logged (EthCall token data) (logged (CacheSismember K E) w).
Proof.
  intros H. apply hasAugustusAllowance_run in H.
  inversion H as [| | | | |s w2 lhs rhs Hn Hin Hg Hl Hr Hcmp]; subst.
  apply getAllowance_resolved_inv in Hg as (data & raw & l & He & Hc & Hd & -> & ->).
  split; [exact Hn|]. split; [exact Hin|].
  exists data, raw, l, lhs, rhs. auto 10.
Qed.

(** X5: the answer [true] has one of three grounds: the token is the
    native asset (nothing was done); or the pair was already cached (only the
    lookup was done); or an on-chain read made during the call returned an
    allowance that is an integer at least the requested amount, in which case
    the pair is in the cache afterwards. *)
Theorem hasAugustusAllowance_true_sound amount w w' :
  hasAugustusAllowance this token target amount w = (Resolved true, w') ->
  (JS.toLowerCase token = JS.toLowerCase ETHER_ADDRESS /\ w' = w) \/
  (JS.toLowerCase token <> JS.toLowerCase ETHER_ADDRESS /\
   E ∈ members (cache w) K /\
   w' = logged (CacheSismember K E) w) \/
  (JS.toLowerCase token <> JS.toLowerCase ETHER_ADDRESS /\
   (E ∉ members (cache w) K) /\
   E ∈ members (cache w') K /\
   exists data raw l lhs rhs,
     encodeFunctionData (erc20Interface this) "allowance" [augustusAddress this; target]
       = Some data /\
     chain w token data = Some raw /\
     decodeFunctionResult (erc20Interface this) "allowance" raw = Some l /\
     JS.StringToBigInt (Result_toString l) = Some lhs /\
     JS.StringToBigInt amount = Some rhs /\
     rhs <= lhs /\
     trace w' = trace w ++ [CacheSismember K E; EthCall token data; CacheSadd K E]).
Proof.
  intros H. apply hasAugustusAllowance_run in H.
  inversion H as [Hn|Hn Hin| | |s w2 lhs rhs Hn Hin Hg Hl Hr Hcmp|]; subst;
    [now left|right; now left|].
  apply getAllowance_resolved_inv in Hg as (data & raw & l & He & Hc & Hd & -> & ->).
  right; right. split; [exact Hn|]. split; [exact Hin|].
  split; [cbn; apply members_sadd|].
  exists data, raw, l, lhs, rhs. repeat (split; [assumption|]).
  cbn. now rewrite <- !app_assoc.
Qed.

(** X6: how a failed read surfaces, for a non-native pair that is not
    cached and whatever the amount (even one that is not a number).  If the
    call cannot be encoded, the rejection comes after the lookup alone, with
    no on-chain read; if the node rejects the call, the provider's rejection
    is passed on; if the answer does not decode, the decoder's.  In each case
    nothing is written to the cache. *)
Theorem hasAugustusAllowance_read_failures amount w :
  JS.toLowerCase token <> JS.toLowerCase ETHER_ADDRESS ->
  E ∉ members (cache w) K ->
  (encodeFunctionData (erc20Interface this) "allowance" [augustusAddress this; target]
     = None ->
   hasAugustusAllowance this token target amount w
   = (Rejected AbiError, logged (CacheSismember K E) w)) /\
  (forall data,
     encodeFunctionData (erc20Interface this) "allowance" [augustusAddress this; target]
       = Some data ->
     (chain w token data = None ->
      hasAugustusAllowance this token target amount w
      = (Rejected ProviderError,
         logged (EthCall token data) (logged (CacheSismember K E) w))) /\
     (forall raw,
        chain w token data = Some raw ->
        decodeFunctionResult (erc20Interface this) "allowance" raw = None ->
        hasAugustusAllowance this token target amount w
        = (Rejected AbiError,
           logged (EthCall token data) (logged (CacheSismember K E) w)))).
Proof.
  intros Hne Hin.
  assert (Hstart : forall r w1,
    getAllowance this (augustusAddress this) token target
      (logged (CacheSismember K E) w) = (Rejected r, w1) ->
    hasAugustusAllowance this token target amount w = (Rejected r, w1)).
  { intros r w1 Hg. rewrite (hasAugustusAllowance_unfold _ _ _ _ Hne).
    unfold bind at 1. unfold sismember. rewrite bool_decide_eq_false_2 by assumption.
    now rewrite (bind_rejected _ _ _ _ _ Hg). }
  split; [|intros data He; split; [|intros raw]].
  - intros He. apply Hstart. unfold getAllowance, bind, try. now rewrite He.
  - intros Hc. apply Hstart. unfold getAllowance, bind, try, eth_call.
    rewrite He. cbn. now rewrite Hc.
  - intros Hc Hd. apply Hstart. unfold getAllowance, bind, try, eth_call.
    rewrite He. cbn. now rewrite Hc, Hd.
Qed.

End AllowanceAnswers.

(** ** Every run of the builder *)

Section BuilderRuns.

Variables (ETHER_ADDRESS : Address) (MAX_UINT : string).
Variable isETHAddress : Address -> bool.
Variable this : SimpleExchange.
Variables (src : Address) (srcAmount : NumberAsString).
Variables (dest : Address) (destAmount : NumberAsString).
Variables (swapCallData : string) (swapCallee : Address).
Variables (spender : option Address) (networkFee_opt : option NumberAsString).
Variable preCalls : option PreCalls.

Local Abbreviation hasAugustusAllowance := (hasAugustusAllowance ETHER_ADDRESS).
Local Abbreviation getApproveSimpleParam := (getApproveSimpleParam ETHER_ADDRESS MAX_UINT).
Local Abbreviation build :=
  (buildSimpleParamWithoutWETHConversion ETHER_ADDRESS MAX_UINT isETHAddress this
     src srcAmount dest destAmount swapCallData swapCallee spender networkFee_opt preCalls).
Local Abbreviation target := (or_else spender swapCallee).

Lemma getApproveSimpleParam_rejected w e w' :
  hasAugustusAllowance this src target srcAmount w = (Rejected e, w') ->
  getApproveSimpleParam this src target srcAmount w = (Rejected e, w').
Proof.
  intros H. rewrite getApproveSimpleParam_eq. now rewrite (bind_rejected _ _ _ _ _ H).
Qed.

Lemma build_rejected w e w' :
  getApproveSimpleParam this src target srcAmount w = (Rejected e, w') ->
  build w = (Rejected e, w').
Proof.
  intros H. rewrite buildSimpleParamWithoutWETHConversion_eq.
  now rewrite (bind_rejected _ _ _ _ _ H).
Qed.

Lemma getApproveSimpleParam_world w :
  snd (getApproveSimpleParam this src target srcAmount w)
  = snd (hasAugustusAllowance this src target srcAmount w).
Proof.
  rewrite getApproveSimpleParam_eq. unfold bind.
  destruct (hasAugustusAllowance this src target srcAmount w) as [[[|]|e] w1];
    try reflexivity.
  unfold try. now destruct (encodeFunctionData _ _ _).
Qed.

Lemma build_world w :
  snd (build w) = snd (getApproveSimpleParam this src target srcAmount w).
Proof.
  rewrite buildSimpleParamWithoutWETHConversion_eq. unfold bind at 1.
  destruct (getApproveSimpleParam this src target srcAmount w) as [[ap|e] w1];
    [|reflexivity].
  unfold bind, BigInt, try, ret, throw.
  destruct (JS.StringToBigInt (default "0" networkFee_opt)); [|reflexivity].
  destruct (isETHAddress src); [|reflexivity].
  now destruct (JS.StringToBigInt srcAmount).
Qed.

(** X7: a rejection of the allowance check (a transport, decoding or
    conversion failure) is passed on unchanged by [getApproveSimpleParam] and
    by [buildSimpleParamWithoutWETHConversion]: the same error, in the same
    world, and no sequence is returned in its place. *)
Theorem allowance_rejection_propagates w e w' :
  hasAugustusAllowance this src target srcAmount w = (Rejected e, w') ->
  getApproveSimpleParam this src target srcAmount w = (Rejected e, w') /\
  build w = (Rejected e, w').
Proof.
  intros H. apply getApproveSimpleParam_rejected in H.
  split; [exact H|now apply build_rejected].
Qed.

(** X8: neither [getApproveSimpleParam] nor the builder does any I/O of
    its own: whatever the inputs and the outcome, the world they leave
    (chain, cache and I/O log) is the one the allowance check for the source
    token and the effective spender leaves. *)
Theorem builder_io_is_allowance_io w :
  snd (getApproveSimpleParam this src target srcAmount w)
    = snd (hasAugustusAllowance this src target srcAmount w) /\
  snd (build w) = snd (hasAugustusAllowance this src target srcAmount w).
Proof.
  split; [apply getApproveSimpleParam_world|].
  rewrite build_world. apply getApproveSimpleParam_world.
Qed.

(** X9: for a native-asset source (by the test of line 77 and by
    [isETHAddress]) whose amount reads as [A] and whose fee reads as [F], the
    builder does no I/O at all and returns the pre-calls followed by the swap
    step alone, with value [A + F]: no approval step is present. *)
Theorem build_native_source w A F :
  JS.toLowerCase src = JS.toLowerCase ETHER_ADDRESS ->
  isETHAddress src = true ->
  JS.StringToBigInt srcAmount = Some A ->
  JS.StringToBigInt (default "0" networkFee_opt) = Some F ->
  build w
  = (Resolved {| callees := from_option pre_callees [] preCalls ++ [swapCallee];
                 calldata := from_option pre_calldata [] preCalls ++ [swapCallData];
                 values := from_option pre_values [] preCalls
                           ++ [JS.BigInt_toString (A + F)];
                 networkFee := default "0" networkFee_opt |}, w).
Proof.
  intros Hnat Heth HA HF.
  assert (Hap : getApproveSimpleParam this src target srcAmount w
                = (Resolved {| callees := []; calldata := []; values := [];
                               networkFee := "0" |}, w)).
  { rewrite getApproveSimpleParam_eq.
    now rewrite (bind_resolved _ _ _ _ _
                   (hasAugustusAllowance_native_eq _ _ _ _ srcAmount w Hnat)). }
  rewrite (buildSimpleParamWithoutWETHConversion_resolves _ _ _ _ _ _ _ _ _ _ _ _ _
             w _ w F A Hap HF (fun _ => HA)).
  rewrite Heth, (Z.add_comm F A). reflexivity.
Qed.

(** X10: when the allowance check answers [false] and the approve call
    encodes, the builder returns the pre-calls, then one approval step
    (callee [augustusAddress], payload [approve(src, spender || swapCallee,
    MAX_UINT)], value "0"), then the swap step; the source amount is then
    known to be an integer, so only the fee can still fail to convert. *)
Theorem build_with_approval w w1 approveCalldata F :
  hasAugustusAllowance this src target srcAmount w = (Resolved false, w1) ->
  encodeFunctionData (simpleSwapHelper this) "approve" [src; target; MAX_UINT]
    = Some approveCalldata ->
  JS.StringToBigInt (default "0" networkFee_opt) = Some F ->
  exists A,
    JS.StringToBigInt srcAmount = Some A /\
    build w
    = (Resolved
         {| callees := from_option pre_callees [] preCalls
                       ++ [augustusAddress this; swapCallee];
            calldata := from_option pre_calldata [] preCalls
                        ++ [approveCalldata; swapCallData];
            values := from_option pre_values [] preCalls
                      ++ ["0"; JS.BigInt_toString
                                 (F + (if isETHAddress src then A else 0))];
            networkFee := default "0" networkFee_opt |}, w1).
Proof.
  intros H He HF.
  assert (HA : exists A, JS.StringToBigInt srcAmount = Some A).
  { apply hasAugustusAllowance_run in H. inversion H; subst; eauto. }
  destruct HA as [A HA]. exists A. split; [exact HA|].
  assert (Hap : getApproveSimpleParam this src target srcAmount w
                = (Resolved {| callees := [augustusAddress this];
                               calldata := [approveCalldata];
                               values := ["0"];
                               networkFee := "0" |}, w1)).
  { rewrite getApproveSimpleParam_eq. rewrite (bind_resolved _ _ _ _ _ H).
    unfold bind, try. unfold Address in He |- *. now rewrite He. }
  now rewrite (buildSimpleParamWithoutWETHConversion_resolves _ _ _ _ _ _ _ _ _ _ _ _ _
                 w _ w1 F A Hap HF (fun _ => HA)).
Qed.

(** X11: the builder converts its amounts only after the approval stage.
    Once that stage has returned: a fee that is not an integer literal is
    rejected with [SyntaxError] in the world the approval stage left (a cache
    write made there stays); so is, for a native source, a source amount that
    is not an integer literal; for a non-native source the builder never
    converts the source amount, and the swap value is the fee alone. *)
Theorem build_amount_conversion w approveParam w1 :
  getApproveSimpleParam this src target srcAmount w = (Resolved approveParam, w1) ->
  (JS.StringToBigInt (default "0" networkFee_opt) = None ->
   build w = (Rejected SyntaxError, w1)) /\
  (forall F,
     JS.StringToBigInt (default "0" networkFee_opt) = Some F ->
     (isETHAddress src = true -> JS.StringToBigInt srcAmount = None ->
      build w = (Rejected SyntaxError, w1)) /\
     (isETHAddress src = false ->
      build w
      = (Resolved
           {| callees := from_option pre_callees [] preCalls ++ callees approveParam
                         ++ [swapCallee];
              calldata := from_option pre_calldata [] preCalls ++ calldata approveParam
                          ++ [swapCallData];
              values := from_option pre_values [] preCalls ++ values approveParam
                        ++ [JS.BigInt_toString F];
              networkFee := default "0" networkFee_opt |}, w1))).
Proof.
  intros Hap. split.
  - intros HF. rewrite buildSimpleParamWithoutWETHConversion_eq.
    rewrite (bind_resolved _ _ _ _ _ Hap).
    now rewrite (bind_rejected _ _ _ _ _ (BigInt_rejected _ _ HF)).
  - intros F HF. split.
    + intros Heth HA. rewrite buildSimpleParamWithoutWETHConversion_eq.
      rewrite (bind_resolved _ _ _ _ _ Hap).
      rewrite (bind_resolved _ _ _ _ _ (BigInt_resolved _ _ _ HF)).
      rewrite Heth. now rewrite (bind_rejected _ _ _ _ _ (BigInt_rejected _ _ HA)).
    + intros Heth.
      rewrite (buildSimpleParamWithoutWETHConversion_resolves _ _ _ _ _ _ _ _ _ _ _ _ _
                 w _ w1 F 0 Hap HF).
      * now rewrite Heth, Z.add_0_r.
      * intros Ht. congruence.
Qed.

End BuilderRuns.

(** ** Cache keys *)

Lemma toLowerCase_app a b :
  JS.toLowerCase (a +:+ b) = JS.toLowerCase a +:+ JS.toLowerCase b.
Proof.
  induction a as [|x a IH]; [reflexivity|].
  change (String (JS.lowerChar x) (JS.toLowerCase (a +:+ b))
          = String (JS.lowerChar x) (JS.toLowerCase a +:+ JS.toLowerCase b)).
  now rewrite IH.
Qed.

Lemma string_app_nil_l s : "" +:+ s = s.
Proof. reflexivity. Qed.

Lemma string_app_cons x a b : String x a +:+ b = String x (a +:+ b).
Proof. reflexivity. Qed.

Lemma string_app_assoc a b c : (a +:+ b) +:+ c = a +:+ (b +:+ c).
Proof.
  induction a as [|x a IH]; [reflexivity|].
  change (String x ((a +:+ b) +:+ c) = String x (a +:+ (b +:+ c))).
  now rewrite IH.
Qed.

Lemma string_length_app a b :
  String.length (a +:+ b) = (String.length a + String.length b)%nat.
Proof.
  induction a as [|x a IH]; [reflexivity|].
  change (S (String.length (a +:+ b)) = S (String.length a + String.length b)).
  now rewrite IH.
Qed.

(** Two strings that differ at the same distance from their ends are
    different, whatever precedes the endings. *)
Lemma suffix_clash x y suf1 suf2 k1 k2 c1 c2 :
  String.get k1 suf1 = Some c1 ->
  String.get k2 suf2 = Some c2 ->
  c1 <> c2 ->
  (k1 + String.length suf2 = k2 + String.length suf1)%nat ->
  x +:+ suf1 <> y +:+ suf2.
Proof.
  intros H1 H2 Hc Hk Heq.
  pose proof (f_equal String.length Heq) as Hlen. rewrite !string_length_app in Hlen.
  rewrite (append_correct2 x suf1 k1) in H1.
  rewrite (append_correct2 y suf2 k2) in H2.
  rewrite Heq in H1.
  replace (k1 + String.length x)%nat with (k2 + String.length y)%nat in H1 by lia.
  congruence.
Qed.

(** X12: for addresses without an underscore (every hexadecimal address),
    the element key [`${token}_${target}`] identifies the pair: two keys are
    equal exactly when both the tokens and the targets are the same
    strings. *)
Theorem cacheKey_injective t1 s1 t2 s2 :
  noUnderscore t1 = true -> noUnderscore t2 = true ->
  cacheKey t1 s1 = cacheKey t2 s2 <-> t1 = t2 /\ s1 = s2.
Proof.
  intros H1 H2. split; [|now intros [-> ->]].
  unfold cacheKey. revert t2 H1 H2.
  induction t1 as [|c1 r1 IH]; intros [|c2 r2] H1 H2 Heq;
    rewrite ?string_app_nil_l, ?string_app_cons, ?string_app_nil_l in Heq.
  - now injection Heq as ->.
  - injection Heq as <- _. discriminate H2.
  - injection Heq as -> _. discriminate H1.
  - injection Heq as -> Heq. cbn in H1, H2.
    apply andb_true_iff in H1 as [_ H1]. apply andb_true_iff in H2 as [_ H2].
    destruct (IH r2 H1 H2 Heq) as [-> ->]. auto.
Qed.

Section ConstructorKeys.

Variables (CACHE_PREFIX : string) (SimpleSwapHelperABI ERC20ABI : Interface).
Variables (dexHelper : IDexHelper) (dexKey : string).

Local Abbreviation this :=
  (constructor CACHE_PREFIX SimpleSwapHelperABI ERC20ABI dexHelper dexKey).

(** X13: the three cache keys built by the constructor are in lower case,
    and they depend on the prefix and on the integration key only up to
    letter case: an instance created with another spelling of either, on the
    same network, has the same three keys. *)
Theorem constructor_keys_lower_case :
  (JS.toLowerCase (dexmapKey this) = dexmapKey this /\
   JS.toLowerCase (cacheStateKey this) = cacheStateKey this /\
   JS.toLowerCase (cacheApprovesKey this) = cacheApprovesKey this) /\
  (forall prefix' abi1 abi2 dexHelper' dexKey',
     JS.toLowerCase prefix' = JS.toLowerCase CACHE_PREFIX ->
     JS.toLowerCase dexKey' = JS.toLowerCase dexKey ->
     config_data_network dexHelper' = config_data_network dexHelper ->
     let that := constructor prefix' abi1 abi2 dexHelper' dexKey' in
     dexmapKey that = dexmapKey this /\
     cacheStateKey that = cacheStateKey this /\
     cacheApprovesKey that = cacheApprovesKey this).
Proof.
  split.
  - cbn [constructor dexmapKey cacheStateKey cacheApprovesKey].
    now rewrite !toLowerCase_idem.
  - intros prefix' abi1 abi2 dexHelper' dexKey' Hp Hd Hn.
    cbn [constructor dexmapKey cacheStateKey cacheApprovesKey].
    rewrite !toLowerCase_app, Hp, Hd, Hn. auto.
Qed.

(** X14: the three kinds of key never collide, whatever the prefixes,
    networks and integration keys involved: no pool-configuration key equals
    a state key or an approvals key, and no state key equals an approvals
    key. *)
Theorem constructor_keys_disjoint prefix' abi1 abi2 dexHelper' dexKey' :
  let that := constructor prefix' abi1 abi2 dexHelper' dexKey' in
  dexmapKey this <> cacheStateKey that /\
  dexmapKey this <> cacheApprovesKey that /\
  cacheStateKey this <> cacheApprovesKey that.
Proof.
  cbn [constructor dexmapKey cacheStateKey cacheApprovesKey].
  rewrite !toLowerCase_app.
  change (JS.toLowerCase "_poolconfigs") with "_poolconfigs".
  change (JS.toLowerCase "_states") with "_states".
  change (JS.toLowerCase "_approves") with "_approves".
  rewrite <- !string_app_assoc.
  repeat split.
  - apply (suffix_clash _ _ _ _ 10 5 "g" "e")%nat; [reflexivity..|discriminate|reflexivity].
  - apply (suffix_clash _ _ _ _ 10 7 "g" "e")%nat; [reflexivity..|discriminate|reflexivity].
  - apply (suffix_clash _ _ _ _ 4 6 "t" "v")%nat; [reflexivity..|discriminate|reflexivity].
Qed.

End ConstructorKeys.

(** Without the restriction the key is ambiguous. *)
Example cacheKey_collision : cacheKey "a_b" "c" = cacheKey "a" "b_c".
Proof. reflexivity. Qed.

(** X15: the approvals set is shared by the integrations of a network.
    Once an instance has answered [true] for a non-native pair, another
    instance created with the same prefix on the same network (whatever its
    integration key and ABI objects) answers [true] for that pair from the
    cache, without any on-chain read, whatever the amount and the state of
    the chain. *)
Theorem approvals_shared_across_integrations
    (CACHE_PREFIX : string) (ETHER_ADDRESS : Address)
    (abi1 abi2 abi3 abi4 : Interface) (dexHelper1 dexHelper2 : IDexHelper)
    (dexKey1 dexKey2 : string)
    (token target : Address) (amount1 amount2 : string) (w w1 w2 : World) :
  let this := constructor CACHE_PREFIX abi1 abi2 dexHelper1 dexKey1 in
  let that := constructor CACHE_PREFIX abi3 abi4 dexHelper2 dexKey2 in
  config_data_network dexHelper2 = config_data_network dexHelper1 ->
  JS.toLowerCase token <> JS.toLowerCase ETHER_ADDRESS ->
  hasAugustusAllowance ETHER_ADDRESS this token target amount1 w = (Resolved true, w1) ->
  cache w2 = cache w1 ->
  hasAugustusAllowance ETHER_ADDRESS that token target amount2 w2
  = (Resolved true,
     logged (CacheSismember (cacheApprovesKey this) (cacheKey token target)) w2) /\
  onChainReads (trace (snd (hasAugustusAllowance ETHER_ADDRESS that token target
                              amount2 w2)))
  = onChainReads (trace w2).
Proof.
  intros this that Hnet Hne H1 Hc.
  assert (Hkey : cacheApprovesKey that = cacheApprovesKey this).
  { cbn [that this constructor cacheApprovesKey]. now rewrite Hnet. }
  apply (hasAugustusAllowance_true_cached _ _ _ _ Hne) in H1.
  rewrite <- Hc, <- Hkey in H1.
  rewrite (hasAugustusAllowance_hit _ _ _ _ Hne amount2 w2 H1), Hkey.
  split; [reflexivity|]. cbn. rewrite onChainReads_app. cbn. lia.
Qed.

(** X16: the deadline placeholder, read back as an integer number of
    seconds, lies more than seven days minus one second and at most seven
    days after the instant of the call, and it never decreases when the clock
    advances. *)
Theorem deadline_window (now : Z) :
  exists deadline,
    JS.StringToBigInt (getLocalDeadlineAsFriendlyPlaceholder now) = Some deadline /\
    now + 604799000 < 1000 * deadline <= now + 604800000 /\
    forall later,
      now <= later ->
      exists deadline',
        JS.StringToBigInt (getLocalDeadlineAsFriendlyPlaceholder later) = Some deadline' /\
        deadline <= deadline'.
Proof.
  exists (now / 1000 + FRIENDLY_LOCAL_DEADLINE). split; [apply StringToBigInt_toString|].
  split.
  - pose proof (Z.div_mod now 1000 ltac:(lia)).
    pose proof (Z.mod_pos_bound now 1000 ltac:(lia)).
    unfold FRIENDLY_LOCAL_DEADLINE. lia.
  - intros later Hle. exists (later / 1000 + FRIENDLY_LOCAL_DEADLINE).
    split; [apply StringToBigInt_toString|].
    pose proof (Z.div_le_mono now later 1000 ltac:(lia) Hle). lia.
Qed.

(** X17: once the allowance check has answered [true] for a non-native
    pair, every later build for that source token and effective spender
    (whatever the amounts, the swap and the state of the chain) contains no
    approval step and performs no on-chain read: the returned sequence is the
    pre-calls followed by the swap step, whose value is the fee. *)
Theorem build_after_approval_cached
    (ETHER_ADDRESS : Address) (MAX_UINT : string) (isETHAddress : Address -> bool)
    (this : SimpleExchange) (src target : Address) (amount : string) (w w1 : World)
    (srcAmount : NumberAsString) (dest : Address) (destAmount : NumberAsString)
    (swapCallData : string) (swapCallee : Address) (spender : option Address)
    (networkFee_opt : option NumberAsString) (preCalls : option PreCalls)
    (w2 : World) (F : Z) :
  JS.toLowerCase src <> JS.toLowerCase ETHER_ADDRESS ->
  isETHAddress src = false ->
  hasAugustusAllowance ETHER_ADDRESS this src target amount w = (Resolved true, w1) ->
  cache w2 = cache w1 ->
  or_else spender swapCallee = target ->
  JS.StringToBigInt (default "0" networkFee_opt) = Some F ->
  exists w3,
    buildSimpleParamWithoutWETHConversion ETHER_ADDRESS MAX_UINT isETHAddress this
      src srcAmount dest destAmount swapCallData swapCallee spender networkFee_opt
      preCalls w2
    = (Resolved {| callees := from_option pre_callees [] preCalls ++ [swapCallee];
                   calldata := from_option pre_calldata [] preCalls ++ [swapCallData];
                   values := from_option pre_values [] preCalls ++ [JS.BigInt_toString F];
                   networkFee := default "0" networkFee_opt |}, w3) /\
    onChainReads (trace w3) = onChainReads (trace w2) /\
    cache w3 = cache w2.
Proof.
  intros Hne Heth H1 Hc Ht HF.
  apply (hasAugustusAllowance_true_cached _ _ _ _ Hne) in H1. rewrite <- Hc in H1.
  pose proof (hasAugustusAllowance_hit _ _ _ _ Hne srcAmount w2 H1) as Hhit.
  assert (Hap : getApproveSimpleParam ETHER_ADDRESS MAX_UINT this src
                  (or_else spender swapCallee) srcAmount w2
                = (Resolved {| callees := []; calldata := []; values := [];
                               networkFee := "0" |},
                   logged (CacheSismember (cacheApprovesKey this) (cacheKey src target))
                     w2)).
  { rewrite Ht, getApproveSimpleParam_eq. now rewrite (bind_resolved _ _ _ _ _ Hhit). }
  eexists. split; [|split].
  - rewrite (buildSimpleParamWithoutWETHConversion_resolves
               ETHER_ADDRESS MAX_UINT isETHAddress this src srcAmount dest destAmount
               swapCallData swapCallee spender networkFee_opt preCalls w2
               _ _ F 0 Hap HF).
    + rewrite Heth, Z.add_0_r. reflexivity.
    + intros Htrue. congruence.
  - cbn. rewrite onChainReads_app. cbn. lia.
  - reflexivity.
Qed.

(** ** The further properties on the concrete deployment *)

Lemma hasAugustusAllowance_false_sound_witness :
  exists l lhs rhs,
    decodeFunctionResult (erc20Interface Demo.this) "allowance" "50" = Some l /\
    JS.StringToBigInt (Result_toString l) = Some lhs /\
    JS.StringToBigInt "100" = Some rhs /\
    lhs < rhs.
Proof.
  destruct (hasAugustusAllowance_false_sound Demo.ETHER_ADDRESS Demo.this
              "0xToken" "0xSpender" "100" Demo.w0
              (snd (hasAugustusAllowance Demo.ETHER_ADDRESS Demo.this
                      "0xToken" "0xSpender" "100" Demo.w0)) eq_refl)
    as (_ & _ & data & raw & l & lhs & rhs & He & Hc & Hd & Hl & Hr & Hlt & _).
  vm_compute in He. injection He as <-. vm_compute in Hc. injection Hc as <-.
  exists l, lhs, rhs. auto.
Defined.

Lemma hasAugustusAllowance_true_sound_witness :
  exists l lhs rhs,
    decodeFunctionResult (erc20Interface Demo.this) "allowance" "50" = Some l /\
    JS.StringToBigInt (Result_toString l) = Some lhs /\
    JS.StringToBigInt "10" = Some rhs /\
    rhs <= lhs /\
    cacheKey "0xToken" "0xSpender"
    ∈ members (cache (snd (hasAugustusAllowance Demo.ETHER_ADDRESS Demo.this
                             "0xToken" "0xSpender" "10" Demo.w0)))
        (cacheApprovesKey Demo.this).
Proof.
  destruct (hasAugustusAllowance_true_sound Demo.ETHER_ADDRESS Demo.this
              "0xToken" "0xSpender" "10" Demo.w0
              (snd (hasAugustusAllowance Demo.ETHER_ADDRESS Demo.this
                      "0xToken" "0xSpender" "10" Demo.w0)) eq_refl)
    as [[Hn _]|[(_ & Hin & _)
               |(_ & _ & Hmem & data & raw & l & lhs & rhs
                 & He & Hc & Hd & Hl & Hr & Hle & _)]].
  - vm_compute in Hn. discriminate Hn.
  - apply (bool_decide_pack _) in Hin. vm_compute in Hin. destruct Hin.
  - vm_compute in He. injection He as <-. vm_compute in Hc. injection Hc as <-.
    exists l, lhs, rhs. auto.
Defined.

Lemma hasAugustusAllowance_read_failures_witness :
  hasAugustusAllowance Demo.ETHER_ADDRESS Scenario.this_refusing
    "0xToken" "0xSpender" "not a number" Demo.w0
  = (Rejected AbiError,
     logged (CacheSismember "dl_1_approves" "0xToken_0xSpender") Demo.w0) /\
  hasAugustusAllowance Demo.ETHER_ADDRESS Demo.this
    "0xToken" "0xSpender" "not a number" Scenario.w_down
  = (Rejected ProviderError,
     logged (EthCall "0xToken" "allowance(0xAugustus,0xSpender)")
       (logged (CacheSismember "dl_1_approves" "0xToken_0xSpender") Scenario.w_down)) /\
  hasAugustusAllowance Demo.ETHER_ADDRESS Demo.this
    "0xToken" "0xSpender" "not a number" Scenario.w_garbled
  = (Rejected AbiError,
     logged (EthCall "0xToken" "allowance(0xAugustus,0xSpender)")
       (logged (CacheSismember "dl_1_approves" "0xToken_0xSpender") Scenario.w_garbled)).
Proof.
  assert (Hne : JS.toLowerCase "0xToken" <> JS.toLowerCase Demo.ETHER_ADDRESS)
    by (vm_compute; discriminate).
  split; [|split].
  - apply (hasAugustusAllowance_read_failures Demo.ETHER_ADDRESS Scenario.this_refusing
             "0xToken" "0xSpender" "not a number" Demo.w0 Hne ltac:(by_evaluation)).
    reflexivity.
  - apply (hasAugustusAllowance_read_failures Demo.ETHER_ADDRESS Demo.this
             "0xToken" "0xSpender" "not a number" Scenario.w_down Hne
             ltac:(by_evaluation)).
    + reflexivity.
    + reflexivity.
  - apply (proj2 (hasAugustusAllowance_read_failures Demo.ETHER_ADDRESS Demo.this
                    "0xToken" "0xSpender" "not a number" Scenario.w_garbled Hne
                    ltac:(by_evaluation))
             "allowance(0xAugustus,0xSpender)" eq_refl) with (raw := "garbled").
    + reflexivity.
    + reflexivity.
Defined.

Lemma allowance_rejection_propagates_witness :
  buildSimpleParamWithoutWETHConversion Demo.ETHER_ADDRESS Demo.MAX_UINT
    Demo.isETHAddress Demo.this "0xToken" "1000" Demo.ETHER_ADDRESS "1"
    "0xswapdata" "0xCallee" (Some "0xSpender") (Some "7") (Some Demo.preCalls)
    Scenario.w_down
  = (Rejected ProviderError,
     logged (EthCall "0xToken" "allowance(0xAugustus,0xSpender)")
       (logged (CacheSismember "dl_1_approves" "0xToken_0xSpender") Scenario.w_down)).
Proof.
  apply (allowance_rejection_propagates Demo.ETHER_ADDRESS Demo.MAX_UINT
           Demo.isETHAddress Demo.this "0xToken" "1000" Demo.ETHER_ADDRESS "1"
           "0xswapdata" "0xCallee" (Some "0xSpender") (Some "7") (Some Demo.preCalls)
           Scenario.w_down).
  reflexivity.
Defined.

Lemma build_native_source_witness :
  buildSimpleParamWithoutWETHConversion Demo.ETHER_ADDRESS Demo.MAX_UINT
    Demo.isETHAddress Demo.this "0xEEEEEEEEEEEEEEEEEEEEEEEEEEEEEEEEEEEEEEEE" "1000"
    "0xToken" "1" "0xswapdata" "0xCallee" None None (Some Demo.preCalls) Scenario.w_down
  = (Resolved {| callees := ["0xPre"; "0xCallee"];
                 calldata := ["0xpredata"; "0xswapdata"];
                 values := ["0"; "1000"];
                 networkFee := "0" |}, Scenario.w_down).
Proof.
  apply (build_native_source Demo.ETHER_ADDRESS Demo.MAX_UINT Demo.isETHAddress
           Demo.this "0xEEEEEEEEEEEEEEEEEEEEEEEEEEEEEEEEEEEEEEEE" "1000" "0xToken" "1"
           "0xswapdata" "0xCallee" None None (Some Demo.preCalls) Scenario.w_down 1000 0);
    reflexivity.
Defined.

Lemma build_with_approval_witness :
  exists A,
    JS.StringToBigInt "100" = Some A /\
    buildSimpleParamWithoutWETHConversion Demo.ETHER_ADDRESS Demo.MAX_UINT
      Demo.isETHAddress Demo.this "0xToken" "100" Demo.ETHER_ADDRESS "1"
      "0xswapdata" "0xCallee" (Some "") (Some "0x10") (Some Demo.preCalls) Demo.w0
    = (Resolved
         {| callees := ["0xPre"; "0xAugustus"; "0xCallee"];
            calldata := ["0xpredata";
                         "approve(0xToken,0xCallee," +:+ Demo.MAX_UINT +:+ ")";
                         "0xswapdata"];
            values := ["0"; "0"; JS.BigInt_toString (16 + 0)];
            networkFee := "0x10" |},
       snd (hasAugustusAllowance Demo.ETHER_ADDRESS Demo.this
              "0xToken" "0xCallee" "100" Demo.w0)).
Proof.
  apply (build_with_approval Demo.ETHER_ADDRESS Demo.MAX_UINT Demo.isETHAddress
           Demo.this "0xToken" "100" Demo.ETHER_ADDRESS "1" "0xswapdata" "0xCallee"
           (Some "") (Some "0x10") (Some Demo.preCalls) Demo.w0
           (snd (hasAugustusAllowance Demo.ETHER_ADDRESS Demo.this
                   "0xToken" "0xCallee" "100" Demo.w0))
           ("approve(0xToken,0xCallee," +:+ Demo.MAX_UINT +:+ ")") 16);
    reflexivity.
Defined.

Lemma build_amount_conversion_witness :
  let w1 := snd (hasAugustusAllowance Demo.ETHER_ADDRESS Demo.this
                   "0xToken" "0xSpender" "10" Demo.w0) in
  buildSimpleParamWithoutWETHConversion Demo.ETHER_ADDRESS Demo.MAX_UINT
    Demo.isETHAddress Demo.this "0xToken" "10" Demo.ETHER_ADDRESS "1"
    "0xswapdata" "0xCallee" (Some "0xSpender") (Some "1.5") None Demo.w0
  = (Rejected SyntaxError, w1) /\
  cacheKey "0xToken" "0xSpender" ∈ members (cache w1) "dl_1_approves".
Proof.
  cbv zeta. split.
  - apply (build_amount_conversion Demo.ETHER_ADDRESS Demo.MAX_UINT Demo.isETHAddress
             Demo.this "0xToken" "10" Demo.ETHER_ADDRESS "1" "0xswapdata" "0xCallee"
             (Some "0xSpender") (Some "1.5") None Demo.w0
             {| callees := []; calldata := []; values := []; networkFee := "0" |}
             (snd (hasAugustusAllowance Demo.ETHER_ADDRESS Demo.this
                     "0xToken" "0xSpender" "10" Demo.w0)));
      reflexivity.
  - by_evaluation.
Defined.

Lemma cacheKey_injective_witness :
  cacheKey "0xToken" "0xSpender" = cacheKey "0xtoken" "0xSpender"
  <-> "0xToken" = "0xtoken" /\ "0xSpender" = "0xSpender".
Proof.
  apply (cacheKey_injective "0xToken" "0xSpender" "0xtoken" "0xSpender"); reflexivity.
Defined.

Lemma approvals_shared_across_integrations_witness :
  let w1 := snd (hasAugustusAllowance Demo.ETHER_ADDRESS Demo.this
                   "0xToken" "0xSpender" "10" Demo.w0) in
  hasAugustusAllowance Demo.ETHER_ADDRESS Scenario.other
    "0xToken" "0xSpender" "1000000" w1
  = (Resolved true, logged (CacheSismember "dl_1_approves" "0xToken_0xSpender") w1).
Proof.
  cbv zeta.
  apply (approvals_shared_across_integrations "dl" Demo.ETHER_ADDRESS
           Demo.abi Demo.abi Demo.abi Demo.abi Demo.dexHelper Demo.dexHelper
           "UniswapV2" "Curve" "0xToken" "0xSpender" "10" "1000000" Demo.w0
           (snd (hasAugustusAllowance Demo.ETHER_ADDRESS Demo.this
                   "0xToken" "0xSpender" "10" Demo.w0))
           (snd (hasAugustusAllowance Demo.ETHER_ADDRESS Demo.this
                   "0xToken" "0xSpender" "10" Demo.w0))
           eq_refl ltac:(vm_compute; discriminate) eq_refl eq_refl).
Defined.

Lemma build_after_approval_cached_witness :
  exists w3,
    buildSimpleParamWithoutWETHConversion Demo.ETHER_ADDRESS Demo.MAX_UINT
      Demo.isETHAddress Demo.this "0xToken" "999999" Demo.ETHER_ADDRESS "1"
      "0xswapdata" "0xSpender" None (Some "7") None
      (snd (hasAugustusAllowance Demo.ETHER_ADDRESS Demo.this
              "0xToken" "0xSpender" "10" Demo.w0))
    = (Resolved {| callees := ["0xSpender"];
                   calldata := ["0xswapdata"];
                   values := ["7"];
                   networkFee := "7" |}, w3) /\
    onChainReads (trace w3) = 1%nat.
Proof.
  destruct (build_after_approval_cached Demo.ETHER_ADDRESS Demo.MAX_UINT
              Demo.isETHAddress Demo.this "0xToken" "0xSpender" "10" Demo.w0
              (snd (hasAugustusAllowance Demo.ETHER_ADDRESS Demo.this
                      "0xToken" "0xSpender" "10" Demo.w0))
              "999999" Demo.ETHER_ADDRESS "1" "0xswapdata" "0xSpender" None (Some "7") None
              (snd (hasAugustusAllowance Demo.ETHER_ADDRESS Demo.this
                      "0xToken" "0xSpender" "10" Demo.w0))
              7 ltac:(vm_compute; discriminate) eq_refl eq_refl eq_refl eq_refl eq_refl)
    as (w3 & Hrun & Hreads & _).
  exists w3. split; [exact Hrun|]. rewrite Hreads. reflexivity.
Defined.
